(** * Profit-Data dashboard: the request-and-render pipeline of
      [static/js/dashboard.js]

    The script is a browser program: module-level variables, DOM controls,
    timers and asynchronous fetches driven by the event loop.  It is embedded
    here as a deterministic step function over an explicit state:

    - [Formatter]: [formatCurrency] on binary64 numbers;
    - [Dom], [Js], [Runtime]: the page, the script's globals, and the
      browser's timers and in-flight requests;
    - [Handlers]: one definition per source function, in source order;
    - [Loop]: events (user input, timer callbacks, network replies), the
      step function and runs;
    - the properties, one section per subject. *)

From Stdlib Require Import ZArith NArith Floats Ascii DecimalString Lia.
From stdpp Require Import base option list gmap strings.

(* ================================================================== *)
(** ** Formatter *)
(* ================================================================== *)

Module Formatter.

(** JavaScript numbers are IEEE binary64 values: Rocq's primitive [float].
  [Prim2SF] exposes a finite number as [(-1)^s * m * 2^e], on which the
  decimal rounding of [Number.prototype.toFixed] is exact integer
  arithmetic. *)

Definition digits (n : Z) : string :=
NilZero.string_of_uint (N.to_uint (Z.to_N n)).

(** The integer [n] for which [n / 10^f - x] is closest to zero, the larger
  one on a tie, for [x = m * 2^e]. *)
Definition nearest_scaled (f : nat) (m : positive) (e : Z) : Z :=
let num := (Z.pos m * 10 ^ Z.of_nat f)%Z in
if (0 <=? e)%Z then (num * 2 ^ e)%Z
else ((2 * num + 2 ^ (- e)) / (2 * 2 ^ (- e)))%Z.

Fixpoint zeros (k : nat) : string :=
match k with
| O => EmptyString
| S k' => "0" +:+ zeros k'
end.

(** Steps 8-10 of [toFixed]: left-pad to [f + 1] digits and put the point
  before the last [f] of them. *)
Definition place_point (f : nat) (ds : string) : string :=
match f with
| O => ds
| _ =>
    let k := String.length ds in
    let ds' := if (k <=? f)%nat then zeros (f + 1 - k) +:+ ds else ds in
    let k' := String.length ds' in
    String.substring 0 (k' - f) ds' +:+ "." +:+ String.substring (k' - f) f ds'
end.

(** [x >= 10^21], the bound past which [toFixed] gives up fixed notation. *)
Definition at_least_1e21 (m : positive) (e : Z) : bool :=
if (0 <=? e)%Z then (10 ^ 21 <=? Z.pos m * 2 ^ e)%Z
else (10 ^ 21 * 2 ^ (- e) <=? Z.pos m)%Z.

Section ToFixed.

(** [Number::toString] of the host, which [toFixed] falls back on for
  infinities, NaN and magnitudes of [10^21] and more.  The shortest
  round-trip digit generation is the engine's; no property below
  depends on it. *)
Variable numberToString : float -> string.

Definition toFixed (f : nat) (x : float) : string :=
match Prim2SF x with
| S754_zero _ => place_point f "0"
| S754_finite s m e =>
    if at_least_1e21 m e then numberToString x
    else (if s then "-" else "") +:+ place_point f (digits (nearest_scaled f m e))
| S754_infinity _ | S754_nan => numberToString x
end.

(** [!value && value !== 0] on a number: falsy numbers are [+0], [-0] and
  [NaN], and only [NaN] differs from [0]. *)
Definition falsy (value : float) : bool :=
(value =? 0)%float || is_nan value.

Definition formatCurrency (value : float) : string :=
if falsy value && negb (value =? 0)%float then "Rs.0" else
let sign := if (value <? 0)%float then "-"
            else if (0 <? value)%float then "+" else "" in
let value := abs value in
if (10000000 <=? value)%float then
  sign +:+ "Rs." +:+ toFixed 2 (value / 10000000)%float +:+ " Cr"
else if (100000 <=? value)%float then
  sign +:+ "Rs." +:+ toFixed 2 (value / 100000)%float +:+ " Lakh"
else if (1000 <=? value)%float then
  sign +:+ "Rs." +:+ toFixed 2 (value / 1000)%float +:+ " K"
else
  sign +:+ "Rs." +:+ toFixed 0 value.

End ToFixed.

End Formatter.


(* ================================================================== *)
(** ** Data exchanged with the backend *)
(* ================================================================== *)

(** A JSON value the script only hands on (KPI block, chart series, table
    rows, blob): an identity plus the names of its truthy properties, which
    is all the script ever inspects of it. *)
Record json := { ident : nat; props : list string }.

Definition has (d : json) (k : string) : bool := bool_decide (k ∈ props d).

(** The object built by [getFilters].  A single select yields a string or
    [null], a multi-select an array. *)
Record FilterSelection := {
  period_type : option string;
  year : option string;
  fy : option string;
  quarter : option string;
  states : list string;
  districts : list string;
  rbms : list string;
  bdms : list string;
  branches : list string;
  brands : list string
}.

(** [params] of [loadComparison].  A period key that is absent, [null] or
    [undefined] is [None]. *)
Record ComparisonFilters := {
  f_rbms : list string;
  f_states : list string;
  f_brands : list string;
  f_branches : list string
}.

Record ComparisonSelection := {
  comparison_type : string;
  dimension : option string;
  filters : ComparisonFilters;
  period1_year : option string;
  period1_fy : option string;
  period1_quarter : option string;
  period2_year : option string;
  period2_fy : option string;
  period2_quarter : option string
}.

(** [data.options] of [/api/load]. *)
Record Options := {
  o_years : list string;
  o_financial_years : list string;
  o_quarters : list string;
  o_states : list string;
  o_districts : list string;
  o_rbms : list string;
  o_bdms : list string;
  o_branches : list string;
  o_brands : list string
}.

(** Requests, as they appear on the wire. *)
Inductive call :=
| ApiLoad (force : bool)
| ApiDashboard (f : FilterSelection)
| ApiInsights (f : FilterSelection)
| ApiChart (chartType : string) (f : FilterSelection)
| ApiMap (f : FilterSelection)
| ApiComparison (p : ComparisonSelection)
| ApiExport (f : FilterSelection).

(** What comes back.  [NetworkFailure] is a [fetch] rejected for another
    reason than an abort, [Malformed] a body on which [response.json()]
    rejects, [Refused] a body with [success: false]. *)
Inductive reply :=
| NetworkFailure (message : string)
| Malformed (message : string)
| Refused (error : option string)
| Loaded (options : Options) (message : string)
| Dashboard (kpis : json) (insights : option json)
            (charts : gmap string json) (table : json)
| Insights (insights : json)
| ChartData (data : option json)
| MapData (data : option json)
| Comparison (data : json)
| Http (ok : bool) (blob : json).

(* ================================================================== *)
(** ** The page *)
(* ================================================================== *)

(** A control is its option list and its current value: [.val(v)] stores
    [v], [.val()] reads it back.  Which values the markup of a [<select>]
    accepts is outside the script. *)
Record select := { options : list string; value : option string }.
Record multiselect := { moptions : list string; mvalue : list string }.

Inductive single_id :=
| PeriodType | Year | Fy | Quarter
| ComparisonType | Period1 | Period2 | ComparisonDimension.

Inductive multi_id :=
| States | Districts | Rbms | Bdms | Branches | Brands
| CompRbms | CompStates | CompBrands | CompBranches.

#[global] Instance single_id_eq_dec : EqDecision single_id.
Proof. solve_decision. Defined.
#[global] Instance multi_id_eq_dec : EqDecision multi_id.
Proof. solve_decision. Defined.

Record Controls := {
  singles : single_id -> select;
  multis : multi_id -> multiselect
}.

(** Content of [#chartDisplay]. *)
Inductive Chart :=
| Untouched
| Emptied
| Plot (chartType : string) (chartData : json)
| Html (message : string).

(** Everything outside the two views: the CSS classes the script toggles,
    as (selector, class) pairs, the refresh button, the loading overlay's
    text, the toasts shown so far and the files handed to the browser for
    download. *)
Record Shell := {
  classes : list (string * string);
  refreshDisabled : bool;
  loadingMessage : string * string;
  toasts : list (string * string);
  downloads : list json
}.

(** The single-period view: each region holds the value it was last
    rendered from.  [mapLayer] is [Some None] once the markers were cleared
    and none drawn. *)
Record SingleView := {
  kpiCards : option json;
  insightCards : option json;
  chartDisplay : Chart;
  mapLayer : option (option json);
  tableBody : option json;
  statusBar : option FilterSelection
}.

Record ComparisonView := {
  comparisonTitle : option (option string * option string);
  comparisonSubtitle : option (string * option string);
  comparisonKpis : option json;
  comparisonChartDisplay : Chart;
  comparisonTableBody : option json
}.

Record Dom := {
  controls : Controls;
  shell : Shell;
  singleView : SingleView;
  comparisonView : ComparisonView
}.

(* ================================================================== *)
(** ** The script's module-level variables *)
(* ================================================================== *)

Record Globals := {
  dataLoaded : bool;
  filterOptions : option Options;    (* [None] is the initial [{}] *)
  currentMode : string;
  activeChart : string;
  filterDebounceTimer : option nat;
  pendingRequest : option nat;       (* the controller, named by its request *)
  cachedChartData : gmap string json
}.

(* ================================================================== *)
(** ** Timers and requests of the browser *)
(* ================================================================== *)

Inductive callback :=
| CbApplyFilters
| CbLoadComparison
| CbAbortLoad (request : nat)
| CbRetryLoad (forceRefresh : bool) (retryCount : nat).

Record timer := { tid : nat; due : N; cb : callback }.

(** The suspended remainder of an async function, waiting on its fetch.
    [awaiter] is the message [loadData] will toast once the [applyFilters]
    call it awaits has run to its end. *)
Inductive pending :=
| PLoad (forceRefresh : bool) (retryCount : nat) (timeoutId : nat)
| PDashboard (f : FilterSelection) (awaiter : option string)
| PInsights
| PChart (chartType : string)
| PMap
| PComparison
| PExport.

Record request := { rid : nat; waiting : pending }.

(** [rejected] is the microtask queue: fetches rejected by [abort()] whose
    [catch] has yet to run.  It is empty between two events. *)
Record Runtime := {
  now : N;
  timers : list timer;
  nextTimer : nat;
  inflight : list request;
  nextRequest : nat;
  netlog : list (nat * call);
  rejected : list request
}.

Record State := { js : Globals; dom : Dom; rt : Runtime }.

(** *** Field updates *)

Definition set_dataLoaded a (g : Globals) : Globals :=
  {| dataLoaded := a; filterOptions := filterOptions g;
     currentMode := currentMode g; activeChart := activeChart g;
     filterDebounceTimer := filterDebounceTimer g;
     pendingRequest := pendingRequest g;
     cachedChartData := cachedChartData g |}.
Definition set_filterOptions a (g : Globals) : Globals :=
  {| dataLoaded := dataLoaded g; filterOptions := a;
     currentMode := currentMode g; activeChart := activeChart g;
     filterDebounceTimer := filterDebounceTimer g;
     pendingRequest := pendingRequest g;
     cachedChartData := cachedChartData g |}.
Definition set_currentMode a (g : Globals) : Globals :=
  {| dataLoaded := dataLoaded g; filterOptions := filterOptions g;
     currentMode := a; activeChart := activeChart g;
     filterDebounceTimer := filterDebounceTimer g;
     pendingRequest := pendingRequest g;
     cachedChartData := cachedChartData g |}.
Definition set_activeChart a (g : Globals) : Globals :=
  {| dataLoaded := dataLoaded g; filterOptions := filterOptions g;
     currentMode := currentMode g; activeChart := a;
     filterDebounceTimer := filterDebounceTimer g;
     pendingRequest := pendingRequest g;
     cachedChartData := cachedChartData g |}.
Definition set_filterDebounceTimer a (g : Globals) : Globals :=
  {| dataLoaded := dataLoaded g; filterOptions := filterOptions g;
     currentMode := currentMode g; activeChart := activeChart g;
     filterDebounceTimer := a; pendingRequest := pendingRequest g;
     cachedChartData := cachedChartData g |}.
Definition set_pendingRequest a (g : Globals) : Globals :=
  {| dataLoaded := dataLoaded g; filterOptions := filterOptions g;
     currentMode := currentMode g; activeChart := activeChart g;
     filterDebounceTimer := filterDebounceTimer g; pendingRequest := a;
     cachedChartData := cachedChartData g |}.
Definition set_cachedChartData a (g : Globals) : Globals :=
  {| dataLoaded := dataLoaded g; filterOptions := filterOptions g;
     currentMode := currentMode g; activeChart := activeChart g;
     filterDebounceTimer := filterDebounceTimer g;
     pendingRequest := pendingRequest g; cachedChartData := a |}.

Definition set_classes a (h : Shell) : Shell :=
  {| classes := a; refreshDisabled := refreshDisabled h;
     loadingMessage := loadingMessage h; toasts := toasts h;
     downloads := downloads h |}.
Definition set_refreshDisabled a (h : Shell) : Shell :=
  {| classes := classes h; refreshDisabled := a;
     loadingMessage := loadingMessage h; toasts := toasts h;
     downloads := downloads h |}.
Definition set_loadingMessage a (h : Shell) : Shell :=
  {| classes := classes h; refreshDisabled := refreshDisabled h;
     loadingMessage := a; toasts := toasts h; downloads := downloads h |}.
Definition set_toasts a (h : Shell) : Shell :=
  {| classes := classes h; refreshDisabled := refreshDisabled h;
     loadingMessage := loadingMessage h; toasts := a;
     downloads := downloads h |}.
Definition set_downloads a (h : Shell) : Shell :=
  {| classes := classes h; refreshDisabled := refreshDisabled h;
     loadingMessage := loadingMessage h; toasts := toasts h;
     downloads := a |}.

Definition set_kpiCards a (v : SingleView) : SingleView :=
  {| kpiCards := a; insightCards := insightCards v;
     chartDisplay := chartDisplay v; mapLayer := mapLayer v;
     tableBody := tableBody v; statusBar := statusBar v |}.
Definition set_insightCards a (v : SingleView) : SingleView :=
  {| kpiCards := kpiCards v; insightCards := a;
     chartDisplay := chartDisplay v; mapLayer := mapLayer v;
     tableBody := tableBody v; statusBar := statusBar v |}.
Definition set_chartDisplay a (v : SingleView) : SingleView :=
  {| kpiCards := kpiCards v; insightCards := insightCards v;
     chartDisplay := a; mapLayer := mapLayer v; tableBody := tableBody v;
     statusBar := statusBar v |}.
Definition set_mapLayer a (v : SingleView) : SingleView :=
  {| kpiCards := kpiCards v; insightCards := insightCards v;
     chartDisplay := chartDisplay v; mapLayer := a; tableBody := tableBody v;
     statusBar := statusBar v |}.
Definition set_tableBody a (v : SingleView) : SingleView :=
  {| kpiCards := kpiCards v; insightCards := insightCards v;
     chartDisplay := chartDisplay v; mapLayer := mapLayer v; tableBody := a;
     statusBar := statusBar v |}.
Definition set_statusBar a (v : SingleView) : SingleView :=
  {| kpiCards := kpiCards v; insightCards := insightCards v;
     chartDisplay := chartDisplay v; mapLayer := mapLayer v;
     tableBody := tableBody v; statusBar := a |}.

Definition set_comparisonTitle a (c : ComparisonView) : ComparisonView :=
  {| comparisonTitle := a; comparisonSubtitle := comparisonSubtitle c;
     comparisonKpis := comparisonKpis c;
     comparisonChartDisplay := comparisonChartDisplay c;
     comparisonTableBody := comparisonTableBody c |}.
Definition set_comparisonSubtitle a (c : ComparisonView) : ComparisonView :=
  {| comparisonTitle := comparisonTitle c; comparisonSubtitle := a;
     comparisonKpis := comparisonKpis c;
     comparisonChartDisplay := comparisonChartDisplay c;
     comparisonTableBody := comparisonTableBody c |}.
Definition set_comparisonKpis a (c : ComparisonView) : ComparisonView :=
  {| comparisonTitle := comparisonTitle c;
     comparisonSubtitle := comparisonSubtitle c; comparisonKpis := a;
     comparisonChartDisplay := comparisonChartDisplay c;
     comparisonTableBody := comparisonTableBody c |}.
Definition set_comparisonChartDisplay a (c : ComparisonView) : ComparisonView :=
  {| comparisonTitle := comparisonTitle c;
     comparisonSubtitle := comparisonSubtitle c;
     comparisonKpis := comparisonKpis c; comparisonChartDisplay := a;
     comparisonTableBody := comparisonTableBody c |}.
Definition set_comparisonTableBody a (c : ComparisonView) : ComparisonView :=
  {| comparisonTitle := comparisonTitle c;
     comparisonSubtitle := comparisonSubtitle c;
     comparisonKpis := comparisonKpis c;
     comparisonChartDisplay := comparisonChartDisplay c;
     comparisonTableBody := a |}.

Definition set_now a (r : Runtime) : Runtime :=
  {| now := a; timers := timers r; nextTimer := nextTimer r;
     inflight := inflight r; nextRequest := nextRequest r;
     netlog := netlog r; rejected := rejected r |}.
Definition set_timers a (r : Runtime) : Runtime :=
  {| now := now r; timers := a; nextTimer := nextTimer r;
     inflight := inflight r; nextRequest := nextRequest r;
     netlog := netlog r; rejected := rejected r |}.
Definition set_nextTimer a (r : Runtime) : Runtime :=
  {| now := now r; timers := timers r; nextTimer := a;
     inflight := inflight r; nextRequest := nextRequest r;
     netlog := netlog r; rejected := rejected r |}.
Definition set_inflight a (r : Runtime) : Runtime :=
  {| now := now r; timers := timers r; nextTimer := nextTimer r;
     inflight := a; nextRequest := nextRequest r; netlog := netlog r;
     rejected := rejected r |}.
Definition set_nextRequest a (r : Runtime) : Runtime :=
  {| now := now r; timers := timers r; nextTimer := nextTimer r;
     inflight := inflight r; nextRequest := a; netlog := netlog r;
     rejected := rejected r |}.
Definition set_netlog a (r : Runtime) : Runtime :=
  {| now := now r; timers := timers r; nextTimer := nextTimer r;
     inflight := inflight r; nextRequest := nextRequest r; netlog := a;
     rejected := rejected r |}.
Definition set_rejected a (r : Runtime) : Runtime :=
  {| now := now r; timers := timers r; nextTimer := nextTimer r;
     inflight := inflight r; nextRequest := nextRequest r;
     netlog := netlog r; rejected := a |}.

Definition on_js (f : Globals -> Globals) (s : State) : State :=
  {| js := f (js s); dom := dom s; rt := rt s |}.
Definition on_rt (f : Runtime -> Runtime) (s : State) : State :=
  {| js := js s; dom := dom s; rt := f (rt s) |}.
Definition on_dom (f : Dom -> Dom) (s : State) : State :=
  {| js := js s; dom := f (dom s); rt := rt s |}.
Definition on_controls (f : Controls -> Controls) : State -> State :=
  on_dom (fun d => {| controls := f (controls d); shell := shell d;
                      singleView := singleView d;
                      comparisonView := comparisonView d |}).
Definition on_shell (f : Shell -> Shell) : State -> State :=
  on_dom (fun d => {| controls := controls d; shell := f (shell d);
                      singleView := singleView d;
                      comparisonView := comparisonView d |}).
Definition on_single (f : SingleView -> SingleView) : State -> State :=
  on_dom (fun d => {| controls := controls d; shell := shell d;
                      singleView := f (singleView d);
                      comparisonView := comparisonView d |}).
Definition on_comparison (f : ComparisonView -> ComparisonView) : State -> State :=
  on_dom (fun d => {| controls := controls d; shell := shell d;
                      singleView := singleView d;
                      comparisonView := f (comparisonView d) |}).

Notation "s |> f" := (f s) (at level 45, left associativity, only parsing).

(* ================================================================== *)
(** ** Browser primitives *)
(* ================================================================== *)

(** JavaScript errors, as far as [error.name] and [error.message] go. *)
Record exn := { name : string; message : string }.

Definition AbortError : exn :=
  {| name := "AbortError"; message := "The user aborted a request." |}.
Definition TypeError (m : string) : exn := {| name := "TypeError"; message := m |}.
Definition SyntaxError (m : string) : exn := {| name := "SyntaxError"; message := m |}.
Definition Error (m : string) : exn := {| name := "Error"; message := m |}.

(** Truthiness of a string-or-null. *)
Definition truthy (v : option string) : bool :=
  match v with
  | Some x => negb (bool_decide (x = ""))
  | None => false
  end.

(** *** jQuery on classes and controls *)

Definition addClass (sel c : string) : State -> State :=
  on_shell (fun h =>
    set_classes (if bool_decide ((sel, c) ∈ classes h) then classes h
                 else classes h ++ [(sel, c)]) h).
Definition removeClass (sel c : string) : State -> State :=
  on_shell (fun h => set_classes (filter (fun x => x ≠ (sel, c)) (classes h)) h).

Definition val (i : single_id) (s : State) : option string :=
  value (singles (controls (dom s)) i).
Definition vals (i : multi_id) (s : State) : list string :=
  mvalue (multis (controls (dom s)) i).

Definition on_select (i : single_id) (f : select -> select) : State -> State :=
  on_controls (fun c =>
    {| singles := fun j => if decide (j = i) then f (singles c j) else singles c j;
       multis := multis c |}).
Definition on_multiselect (i : multi_id) (f : multiselect -> multiselect)
  : State -> State :=
  on_controls (fun c =>
    {| singles := singles c;
       multis := fun j => if decide (j = i) then f (multis c j) else multis c j |}).

Definition set_val (i : single_id) (v : option string) : State -> State :=
  on_select (i) (fun e => {| options := options e; value := v |}).
Definition set_vals (i : multi_id) (v : list string) : State -> State :=
  on_multiselect i (fun e => {| moptions := moptions e; mvalue := v |}).

(** [.empty()] leaves a select without options and so without a value;
    appending to a single select that shows no value makes the browser
    select its first option. *)
Definition emptySelect (i : single_id) : State -> State :=
  on_select i (fun _ => {| options := []; value := None |}).
Definition appendOptions (i : single_id) (new : list string) : State -> State :=
  on_select i (fun e =>
    let all := options e ++ new in
    {| options := all;
       value := match value e with Some v => Some v | None => head all end |}).
Definition emptyMulti (i : multi_id) : State -> State :=
  on_multiselect i (fun _ => {| moptions := []; mvalue := [] |}).
Definition appendMulti (i : multi_id) (new : list string) : State -> State :=
  on_multiselect i (fun e => {| moptions := moptions e ++ new; mvalue := mvalue e |}).

(** *** Timers *)

Definition setTimeout (c : callback) (delay : N) (s : State) : nat * State :=
  (nextTimer (rt s),
   on_rt (fun r =>
     r |> set_timers (timers r ++ [{| tid := nextTimer r; due := now r + delay; cb := c |}])
       |> set_nextTimer (S (nextTimer r))) s).

Definition clearTimeout (t : option nat) (s : State) : State :=
  match t with
  | None => s
  | Some i => on_rt (fun r => set_timers (filter (fun x => tid x ≠ i) (timers r)) r) s
  end.

(** *** Requests *)

(** [fetch]: the request goes out and the caller is suspended on it. *)
Definition fetch (c : call) (w : pending) : State -> State :=
  on_rt (fun r =>
    r |> set_inflight (inflight r ++ [{| rid := nextRequest r; waiting := w |}])
      |> set_netlog (netlog r ++ [(nextRequest r, c)])
      |> set_nextRequest (S (nextRequest r))).

Definition lookup_request (c : nat) (s : State) : option request :=
  snd <$> list_find (fun q => rid q = c) (inflight (rt s)).

Definition forget_request (c : nat) : State -> State :=
  on_rt (fun r => set_inflight (filter (fun q => rid q ≠ c) (inflight r)) r).

(** [controller.abort()]: a fetch still in flight is rejected with an
    [AbortError]; its [catch] runs once the current handler has returned.
    On a controller whose fetch is over, nothing happens. *)
Definition abort (c : nat) (s : State) : State :=
  match lookup_request c s with
  | Some q => s |> forget_request c
                |> on_rt (fun r => set_rejected (rejected r ++ [q]) r)
  | None => s
  end.

(** [String.prototype.split] on a one-character separator. *)
Fixpoint split (sep : ascii) (x : string) : list string :=
  match x with
  | EmptyString => [EmptyString]
  | String c rest =>
      if bool_decide (c = sep) then EmptyString :: split sep rest
      else match split sep rest with
           | h :: t => String c h :: t
           | [] => [String c EmptyString]
           end
  end.

(* ================================================================== *)
(** ** The script *)
(* ================================================================== *)

(** One definition per function of [dashboard.js].  An async function is
    its synchronous part, under the function's name, and what it does once
    its fetch settles ([_reply], [_catch], [_finally]).  The order is that of
    the source except where a callee has to come first. *)

(** *** Loading messages *)

Definition updateLoadingMessage (title tip : string) : State -> State :=
  on_shell (set_loadingMessage (title, tip)).

Definition hideLoadingOverlay : State -> State := addClass "#loadingOverlay" "hidden".
Definition showLoadingOverlay : State -> State := removeClass "#loadingOverlay" "hidden".

(** *** Loading indicators *)

Definition showFilterLoading (s : State) : State :=
  s |> removeClass "#filterLoadingIndicator" "hidden"
    |> addClass ".chart-container" "loading"
    |> addClass ".kpi-card" "loading".

Definition hideFilterLoading (s : State) : State :=
  s |> addClass "#filterLoadingIndicator" "hidden"
    |> removeClass ".chart-container" "loading"
    |> removeClass ".kpi-card" "loading".

Definition showComparisonLoading (s : State) : State :=
  s |> addClass "#comparisonChartDisplay:parent" "loading"
    |> addClass "#comparisonKpis" "loading".

Definition hideComparisonLoading (s : State) : State :=
  s |> removeClass "#comparisonChartDisplay:parent" "loading"
    |> removeClass "#comparisonKpis" "loading".

(** *** Toast notifications *)

(** The toast's own timers only animate it; the model keeps what was shown. *)
Definition showToast (message type : string) : State -> State :=
  on_shell (fun h => set_toasts (toasts h ++ [(message, type)]) h).

(** *** Debouncing *)

Definition debouncedApplyFilters (s : State) : State :=
  let s := clearTimeout (filterDebounceTimer (js s)) s in
  let s := showFilterLoading s in
  let '(t, s) := setTimeout CbApplyFilters 300 s in
  on_js (set_filterDebounceTimer (Some t)) s.

Definition debouncedLoadComparison (s : State) : State :=
  let s := clearTimeout (filterDebounceTimer (js s)) s in
  let s := showComparisonLoading s in
  let '(t, s) := setTimeout CbLoadComparison 300 s in
  on_js (set_filterDebounceTimer (Some t)) s.

(** *** Filters *)

Definition getFilters (s : State) : FilterSelection :=
  {| period_type := val PeriodType s;
     year := val Year s;
     fy := val Fy s;
     quarter := val Quarter s;
     states := vals States s;
     districts := vals Districts s;
     rbms := vals Rbms s;
     bdms := vals Bdms s;
     branches := vals Branches s;
     brands := vals Brands s |}.

Definition updateInsights (insights : json) : State -> State :=
  on_single (set_insightCards (Some insights)).

Definition updateTableFromData (table : json) : State -> State :=
  on_single (set_tableBody (Some table)).

Definition updateStatus (f : FilterSelection) : State -> State :=
  on_single (set_statusBar (Some f)).

(** *** Charts *)

Definition renderChart (chartType : string) (chartData : json) : State -> State :=
  on_single (set_chartDisplay
    (if bool_decide (chartType = "monthly") && has chartData "labels" then
       Plot chartType chartData
     else if bool_decide (chartType = "hierarchy") && has chartData "rbm" then
       Plot chartType chartData
     else if bool_decide (chartType = "geographic") && has chartData "states" then
       Plot chartType chartData
     else if bool_decide (chartType = "product") && has chartData "labels" then
       Plot chartType chartData
     else if bool_decide (chartType = "rbm") && has chartData "labels" then
       Plot chartType chartData
     else Html "No data available")).

(** The markers are cleared first; none are drawn for a missing value or
    one without districts. *)
Definition renderIndiaMap (mapData : option json) : State -> State :=
  on_single (set_mapLayer (Some
    match mapData with
    | Some d => if has d "districts" then Some d else None
    | None => None
    end)).

Definition loadChart (chartType : string) (f : FilterSelection) (s : State) : State :=
  s |> removeClass "#chartLoading" "hidden"
    |> on_single (set_chartDisplay Emptied)
    |> fetch (ApiChart chartType f) (PChart chartType).

Definition loadChart_reply (chartType : string) (r : reply) (s : State)
  : option State :=
  let finally := addClass "#chartLoading" "hidden" in
  match r with
  | ChartData (Some d) => Some (s |> renderChart chartType d |> finally)
  | ChartData None | Refused _ =>
      Some (s |> on_single (set_chartDisplay (Html "No data available for this chart"))
              |> finally)
  | NetworkFailure _ | Malformed _ =>
      Some (s |> on_single (set_chartDisplay (Html "Error loading chart"))
              |> finally)
  | _ => None
  end.

Definition loadMapData (f : FilterSelection) : State -> State :=
  fetch (ApiMap f) PMap.

Definition loadMapData_reply (r : reply) (s : State) : option State :=
  match r with
  | MapData (Some d) => Some (renderIndiaMap (Some d) s)
  | MapData None | Refused _ => Some s
  | NetworkFailure _ | Malformed _ => Some s
  | _ => None
  end.

(** The highlighting of the tab, by matching its label, is styling and is
    left out. *)
Definition showChart (chartType : string) (s : State) : State :=
  let s := on_js (set_activeChart chartType) s in
  if bool_decide (chartType = "map") then
    let s := s |> addClass "#chartDisplay" "hidden"
               |> removeClass "#mapContainer" "hidden" in
    match cachedChartData (js s) !! "map" with
    | Some d => renderIndiaMap (Some d) s
    | None => loadMapData (getFilters s) s
    end
  else
    let s := s |> removeClass "#chartDisplay" "hidden"
               |> addClass "#mapContainer" "hidden" in
    match cachedChartData (js s) !! chartType with
    | Some d => renderChart chartType d s
    | None => loadChart chartType (getFilters s) s
    end.

(** *** Apply filters *)

(** What [loadData] does once the [applyFilters] call it awaits is over,
    its [finally] included. *)
Definition loadData_resume (message : string) (s : State) : State :=
  s |> showToast ("Data loaded successfully! " +:+ message) "success"
    |> on_shell (set_refreshDisabled false).

Definition resume (awaiter : option string) : State -> State :=
  match awaiter with
  | Some message => loadData_resume message
  | None => id
  end.

(** [awaiter] is [Some] for the one call that [loadData] awaits. *)
Definition applyFilters (awaiter : option string) (s : State) : State :=
  if negb (dataLoaded (js s)) then resume awaiter s else
  (* Cancel pending request *)
  let s := match pendingRequest (js s) with
           | Some c => abort c s
           | None => s
           end in
  let controller := nextRequest (rt s) in
  let s := on_js (set_pendingRequest (Some controller)) s in
  let f := getFilters s in
  fetch (ApiDashboard f) (PDashboard f awaiter) s.

Definition applyFilters_finally (awaiter : option string) (s : State) : State :=
  s |> on_js (set_pendingRequest None) |> resume awaiter.

Definition applyFilters_catch (e : exn) (awaiter : option string) (s : State)
  : State :=
  (* only the console differs between an abort and another error *)
  s |> hideFilterLoading |> applyFilters_finally awaiter.

Definition applyFilters_reply (f : FilterSelection) (awaiter : option string)
    (r : reply) (s : State) : option State :=
  match r with
  | Dashboard kpis insights charts table =>
      Some (s |> on_single (set_kpiCards (Some kpis))
              |> match insights with
                 | Some i => updateInsights i
                 | None => id
                 end
              (* Cache ALL chart data for instant switching *)
              |> on_js (set_cachedChartData charts)
              |> (fun s =>
                    if bool_decide (activeChart (js s) = "map") then
                      renderIndiaMap (cachedChartData (js s) !! "map") s
                    else match cachedChartData (js s) !! activeChart (js s) with
                         | Some d => renderChart (activeChart (js s)) d s
                         | None => s
                         end)
              |> updateTableFromData table
              |> updateStatus f
              |> hideFilterLoading
              |> applyFilters_finally awaiter)
  | Refused _ => Some (applyFilters_finally awaiter s)
  | NetworkFailure m => Some (applyFilters_catch (TypeError m) awaiter s)
  | Malformed m => Some (applyFilters_catch (SyntaxError m) awaiter s)
  | _ => None
  end.

(** *** Insights *)

Definition refreshInsights (s : State) : State :=
  fetch (ApiInsights (getFilters s)) PInsights s.

Definition refreshInsights_reply (r : reply) (s : State) : option State :=
  match r with
  | Insights i => Some (s |> updateInsights i |> showToast "Insights refreshed!" "success")
  | Refused _ => Some s
  | NetworkFailure _ | Malformed _ => Some s
  | _ => None
  end.

(** *** Comparison *)

Definition renderComparisonKPIs (data : json) : State -> State :=
  on_comparison (set_comparisonKpis (Some data)).

Definition renderComparisonChart (data : json) : State -> State :=
  on_comparison (set_comparisonChartDisplay
    (if has data "chart" then Plot "comparison" data
     else Html "No comparison data")).

Definition renderComparisonTable (data : json) : State -> State :=
  on_comparison (set_comparisonTableBody (Some data)).

(** The [params] object.  [None] stands for the [TypeError] of [split] on
    a [null] period. *)
Definition comparisonParams (ct : string) (s : State)
  : option ComparisonSelection :=
  let period1 := val Period1 s in
  let period2 := val Period2 s in
  let params y1 f1 q1 y2 f2 q2 :=
    {| comparison_type := ct; dimension := val ComparisonDimension s;
       filters := {| f_rbms := vals CompRbms s; f_states := vals CompStates s;
                     f_brands := vals CompBrands s;
                     f_branches := vals CompBranches s |};
       period1_year := y1; period1_fy := f1; period1_quarter := q1;
       period2_year := y2; period2_fy := f2; period2_quarter := q2 |} in
  (* Parse period values *)
  if bool_decide (ct = "year") then
    Some (params period1 None None period2 None None)
  else if bool_decide (ct = "fy") then
    Some (params None period1 None None period2 None)
  else if bool_decide (ct = "quarter") then
    match period1, period2 with
    | Some p1, Some p2 =>
        let a := split "-" p1 in
        let b := split "-" p2 in
        Some (params (a !! 0) None (a !! 1) (b !! 0) None (b !! 1))
    | _, _ => None
    end
  else Some (params None None None None None None).

(** A [TypeError] inside the async function ([toUpperCase] or [split] on
    [null]) rejects the promise nobody reads: the function just stops. *)
Definition loadComparison (s : State) : State :=
  if negb (dataLoaded (js s)) then s else
  let compType := val ComparisonType s in
  let s := on_comparison (set_comparisonTitle
                            (Some (val Period1 s, val Period2 s))) s in
  match compType with
  | None => s
  | Some ct =>
      let s := on_comparison (set_comparisonSubtitle
                                (Some (ct, val ComparisonDimension s))) s in
      match comparisonParams ct s with
      | Some p => fetch (ApiComparison p) PComparison s
      | None => s
      end
  end.

Definition loadComparison_reply (r : reply) (s : State) : option State :=
  match r with
  | Comparison data =>
      Some (s |> renderComparisonKPIs data
              |> renderComparisonChart data
              |> renderComparisonTable data
              |> hideComparisonLoading)
  | Refused _ => Some s
  | NetworkFailure _ | Malformed _ => Some (hideComparisonLoading s)
  | _ => None
  end.

(** *** Filter population *)

Inductive outcome :=
| Returned (s : State)
| Thrown (e : exn) (s : State).

(** Reading [.years] of the initial [{}] gives [undefined], and [forEach]
    on it throws. *)
Definition populateComparisonPeriods (s : State) : outcome :=
  let type := val ComparisonType s in
  let s := s |> emptySelect Period1 |> emptySelect Period2 in
  let fill opts s := s |> appendOptions Period1 opts |> appendOptions Period2 opts in
  let defaults opts s :=
    match opts with
    | y0 :: y1 :: _ => s |> set_val Period1 (Some y1) |> set_val Period2 (Some y0)
    | _ => s
    end in
  let undefined := TypeError "Cannot read properties of undefined (reading 'forEach')" in
  if bool_decide (type = Some "year") then
    match filterOptions (js s) with
    | Some o => Returned (s |> fill (o_years o) |> defaults (o_years o))
    | None => Thrown undefined s
    end
  else if bool_decide (type = Some "fy") then
    match filterOptions (js s) with
    | Some o => Returned (s |> fill (o_financial_years o)
                            |> defaults (o_financial_years o))
    | None => Thrown undefined s
    end
  else if bool_decide (type = Some "quarter") then
    match filterOptions (js s) with
    | Some o =>
        Returned (fill (y ← o_years o; q ← o_quarters o; [y +:+ "-" +:+ q]) s)
    | None => Thrown undefined s
    end
  else Returned s.

(** Helper to preserve selection. *)
Definition preserveSelection (i : multi_id) (newOptions : list string)
    (s : State) : State :=
  let currentVal := vals i s in
  let s := s |> emptyMulti i |> appendMulti i newOptions in
  if bool_decide (currentVal = []) then s else set_vals i currentVal s.

(** The same for the three period selects, each behind its placeholder
    option of value [""]. *)
Definition refill (i : single_id) (newOptions : list string) (s : State) : State :=
  let current := val i s in
  let s := s |> emptySelect i |> appendOptions i ("" :: newOptions) in
  if truthy current then set_val i current s else s.

Definition populateFilters (o : Options) (s : State) : outcome :=
  s |> refill Year (o_years o)
    |> refill Fy (o_financial_years o)
    |> refill Quarter (o_quarters o)
    (* Multi-selects with preservation *)
    |> preserveSelection States (o_states o)
    |> preserveSelection Districts (o_districts o)
    |> preserveSelection Rbms (o_rbms o)
    |> preserveSelection Bdms (o_bdms o)
    |> preserveSelection Branches (o_branches o)
    |> preserveSelection Brands (o_brands o)
    (* Comparison filters *)
    |> preserveSelection CompStates (o_states o)
    |> preserveSelection CompRbms (o_rbms o)
    |> preserveSelection CompBranches (o_branches o)
    |> preserveSelection CompBrands (o_brands o)
    (* [trigger('change.select2')] reaches no handler of the script *)
    |> populateComparisonPeriods.

(** *** Data loading *)

Definition messages : list (string * string) :=
  [ ("Connecting to Supabase...", "Fetching live data from database...");
    ("Loading Records...", "This takes ~1-2 minutes for 8 lakh records...");
    ("Processing Data...", "Preparing dashboard visualizations...") ].

Definition loadData (forceRefresh : bool) (retryCount : nat) (s : State) : State :=
  let s := if forceRefresh then s else showLoadingOverlay s in
  let s := on_shell (set_refreshDisabled true) s in
  let msg := nth (Nat.min retryCount (length messages - 1)) messages ("", "") in
  let s := updateLoadingMessage msg.1 msg.2 s in
  let controller := nextRequest (rt s) in
  let '(timeoutId, s) := setTimeout (CbAbortLoad controller) 300000 s in
  fetch (ApiLoad forceRefresh) (PLoad forceRefresh retryCount timeoutId) s.

(** The [catch] of [loadData], with the [finally] of the paths that end
    here.  On the retry path the function is suspended on the cool-down
    timer, whose callback is [CbRetryLoad]. *)
Definition loadData_catch (forceRefresh : bool) (retryCount : nat) (error : exn)
    (s : State) : State :=
  if (retryCount <? 3)%nat && bool_decide (name error = "AbortError") then
    s |> updateLoadingMessage "Retrying..."
           ("Attempt " +:+ Formatter.digits (Z.of_nat (retryCount + 2))
              +:+ "/4 - Large dataset processing...")
      |> (fun s => (setTimeout (CbRetryLoad forceRefresh retryCount) 2000 s).2)
  else
    s |> hideLoadingOverlay
      |> removeClass "#welcomeScreen" "hidden"
      |> showToast ("Load failed: " +:+ message error +:+ ". Click Refresh to retry.")
           "error"
      |> on_shell (set_refreshDisabled false).

(** After the cool-down: [return loadData(forceRefresh, retryCount + 1)],
    then the [finally] of the attempt that is ending. *)
Definition loadData_retry (forceRefresh : bool) (retryCount : nat) (s : State)
  : State :=
  s |> loadData forceRefresh (retryCount + 1)
    |> on_shell (set_refreshDisabled false).

Definition loadData_reply (forceRefresh : bool) (retryCount timeoutId : nat)
    (r : reply) (s : State) : option State :=
  match r with
  | NetworkFailure m => Some (loadData_catch forceRefresh retryCount (TypeError m) s)
  | Malformed m =>
      Some (s |> clearTimeout (Some timeoutId)
              |> loadData_catch forceRefresh retryCount (SyntaxError m))
  | Loaded o msg =>
      let s := s |> clearTimeout (Some timeoutId)
                 |> on_js (set_dataLoaded true)
                 |> on_js (set_filterOptions (Some o)) in
      Some match populateFilters o s with
           | Returned s =>
               s |> addClass "#welcomeScreen" "hidden"
                 |> removeClass "#dashboardContent" "hidden"
                 |> hideLoadingOverlay
                 |> applyFilters (Some msg)
           | Thrown e s => loadData_catch forceRefresh retryCount e s
           end
  | Refused error =>
      let m := if truthy error then default "" error
               else "Unknown error loading data" in
      Some (s |> clearTimeout (Some timeoutId)
              |> loadData_catch forceRefresh retryCount (Error m))
  | _ => None
  end.

(** *** Filter events *)

Definition onPeriodTypeChange (s : State) : State :=
  let type := val PeriodType s in
  let s := s |> addClass "#yearSelect" "hidden"
             |> addClass "#fySelect" "hidden"
             |> addClass "#quarterSelect" "hidden" in
  let s := if bool_decide (type = Some "year") || bool_decide (type = Some "quarter")
           then removeClass "#yearSelect" "hidden" s else s in
  let s := if bool_decide (type = Some "fy")
           then removeClass "#fySelect" "hidden" s else s in
  let s := if bool_decide (type = Some "quarter")
           then removeClass "#quarterSelect" "hidden" s else s in
  applyFilters None s.

Definition onComparisonTypeChange (s : State) : State :=
  match populateComparisonPeriods s with
  | Returned s => loadComparison s
  | Thrown _ s => s
  end.

(** *** Mode switching *)

Definition setMode (mode : string) (s : State) : State :=
  let s := s |> on_js (set_currentMode mode)
             |> removeClass "#singleModeBtn" "active"
             |> removeClass "#comparisonModeBtn" "active"
             |> addClass ("#" +:+ mode +:+ "ModeBtn") "active" in
  if bool_decide (mode = "single") then
    s |> removeClass "#singleFilters" "hidden"
      |> addClass "#comparisonFilters" "hidden"
      |> removeClass "#singleView" "hidden"
      |> addClass "#comparisonView" "hidden"
      |> applyFilters None
  else
    s |> addClass "#singleFilters" "hidden"
      |> removeClass "#comparisonFilters" "hidden"
      |> addClass "#singleView" "hidden"
      |> removeClass "#comparisonView" "hidden"
      |> loadComparison.

(** *** Reset filters *)

(** [.val(x).trigger('change')] on a set of elements writes all of them,
    then runs the handler bound to each in turn. *)
Definition resetFilters (s : State) : State :=
  s (* Reset time period *)
    |> set_val PeriodType (Some "")
    |> set_val Year (Some "")
    |> set_val Fy (Some "")
    |> set_val Quarter (Some "")
    |> addClass "#yearSelect" "hidden"
    |> addClass "#fySelect" "hidden"
    |> addClass "#quarterSelect" "hidden"
    (* Reset multi-selects *)
    |> set_vals States [] |> set_vals Districts [] |> set_vals Rbms []
    |> set_vals Bdms [] |> set_vals Branches [] |> set_vals Brands []
    |> debouncedApplyFilters |> debouncedApplyFilters |> debouncedApplyFilters
    |> debouncedApplyFilters |> debouncedApplyFilters |> debouncedApplyFilters
    (* Reset comparison filters *)
    |> set_val ComparisonType (Some "year")
    |> set_val Period1 (Some "") |> set_val Period2 (Some "")
    |> set_val ComparisonDimension (Some "Overall")
    |> set_vals CompRbms [] |> set_vals CompStates []
    |> set_vals CompBrands [] |> set_vals CompBranches []
    |> debouncedLoadComparison |> debouncedLoadComparison
    |> debouncedLoadComparison |> debouncedLoadComparison
    |> applyFilters None
    |> showToast "Filters reset successfully!" "success".

(** *** Export *)

Definition exportData (s : State) : State :=
  fetch (ApiExport (getFilters s)) PExport s.

Definition exportData_reply (r : reply) (s : State) : option State :=
  match r with
  | Http true blob =>
      Some (s |> on_shell (fun h => set_downloads (downloads h ++ [blob]) h)
              |> showToast "Data exported successfully!" "success")
  | Http false _ => Some (showToast "Export failed. Please try again." "error" s)
  | NetworkFailure _ => Some (showToast "Export failed. Please try again." "error" s)
  | _ => None
  end.

(* ================================================================== *)
(** ** The event loop *)
(* ================================================================== *)

(** What the page can be subjected to: the document becoming ready, the
    user acting on a control or on an element whose markup calls a function
    of the script, a reply (or failure) reaching a fetch in flight, and
    time passing, in milliseconds. *)
Inductive event :=
| EvReady
| EvClickRefresh
| EvClickExport
| EvResetFilters
| EvRefreshInsights
| EvSetMode (mode : string)
| EvShowChart (chartType : string)
| EvChangeSingle (i : single_id) (v : option string)
| EvChangeMulti (i : multi_id) (v : list string)
| EvReply (request : nat) (r : reply)
| EvElapse (ms : nat).

(** The wiring done in [$(document).ready]. *)
Definition single_handler (i : single_id) : State -> State :=
  match i with
  | PeriodType => onPeriodTypeChange
  | ComparisonType => onComparisonTypeChange
  | Year | Fy | Quarter => debouncedApplyFilters
  | Period1 | Period2 | ComparisonDimension => debouncedLoadComparison
  end.

Definition multi_handler (i : multi_id) : State -> State :=
  match i with
  | States | Districts | Rbms | Bdms | Branches | Brands => debouncedApplyFilters
  | CompRbms | CompStates | CompBrands | CompBranches => debouncedLoadComparison
  end.

(** The continuation of a settled fetch; [None] when the reply is not one
    its endpoint gives. *)
Definition settle (q : request) (r : reply) (s : State) : option State :=
  match waiting q with
  | PLoad forceRefresh retryCount timeoutId =>
      loadData_reply forceRefresh retryCount timeoutId r s
  | PDashboard f awaiter => applyFilters_reply f awaiter r s
  | PInsights => refreshInsights_reply r s
  | PChart chartType => loadChart_reply chartType r s
  | PMap => loadMapData_reply r s
  | PComparison => loadComparison_reply r s
  | PExport => exportData_reply r s
  end.

(** The [catch] of a fetch rejected by [abort()].  Only [loadData] and
    [applyFilters] hand a signal to their fetch. *)
Definition settle_abort (q : request) (s : State) : State :=
  match waiting q with
  | PLoad forceRefresh retryCount _ => loadData_catch forceRefresh retryCount AbortError s
  | PDashboard _ awaiter => applyFilters_catch AbortError awaiter s
  | _ => s
  end.

(** Microtask checkpoint: the rejections queued by the handler that just
    returned are delivered, in order.  None of them aborts anything. *)
Definition drain (s : State) : State :=
  foldl (fun s q => settle_abort q s) (on_rt (set_rejected []) s) (rejected (rt s)).

Definition run_callback (c : callback) (s : State) : State :=
  match c with
  | CbApplyFilters => applyFilters None s
  | CbLoadComparison => loadComparison s
  | CbAbortLoad request => abort request s
  | CbRetryLoad forceRefresh retryCount => loadData_retry forceRefresh retryCount s
  end.

(** The timer [i] goes off, if it is still set. *)
Definition fire (i : nat) (s : State) : State :=
  match list_find (fun t => tid t = i) (timers (rt s)) with
  | Some (_, t) => s |> clearTimeout (Some i) |> run_callback (cb t) |> drain
  | None => s
  end.

(** One millisecond passes; the timers that have come due go off in the
    order they were set. *)
Definition tick (s : State) : State :=
  let s := on_rt (fun r => set_now (now r + 1)%N r) s in
  foldl (fun s i => fire i s) s
        (tid <$> filter (fun t => (due t <= now (rt s))%N) (timers (rt s))).

Fixpoint elapse (ms : nat) (s : State) : State :=
  match ms with
  | O => s
  | S ms' => elapse ms' (tick s)
  end.

Definition handle (e : event) (s : State) : State :=
  match e with
  | EvReady =>
      s |> updateLoadingMessage "Connecting to Supabase..."
             "Fetching records from database..."
        |> loadData false 0
  | EvClickRefresh =>
      (* a disabled button gets no click *)
      if refreshDisabled (shell (dom s)) then s else loadData true 0 s
  | EvClickExport => exportData s
  | EvResetFilters => resetFilters s
  | EvRefreshInsights => refreshInsights s
  | EvSetMode mode => setMode mode s
  | EvShowChart chartType => showChart chartType s
  | EvChangeSingle i v => s |> set_val i v |> single_handler i
  | EvChangeMulti i v => s |> set_vals i v |> multi_handler i
  | EvReply c r =>
      match lookup_request c s with
      | Some q => default s (settle q r (forget_request c s))
      | None => s
      end
  | EvElapse ms => elapse ms s
  end.

Definition step (s : State) (e : event) : State := drain (handle e s).

Definition run (s : State) (es : list event) : State := foldl step s es.

(** The script's variables as declared at its top, nothing scheduled and
    nothing in flight, on a given page. *)
Definition init (page : Dom) : State :=
  {| js := {| dataLoaded := false; filterOptions := None;
              currentMode := "single"; activeChart := "monthly";
              filterDebounceTimer := None; pendingRequest := None;
              cachedChartData := ∅ |};
     dom := page;
     rt := {| now := 0; timers := []; nextTimer := 0; inflight := [];
              nextRequest := 0; netlog := []; rejected := [] |} |}.

(** A page before any script ran: empty controls, nothing rendered, no
    class set. *)
Definition blank : Dom :=
  {| controls := {| singles := fun _ => {| options := []; value := None |};
                    multis := fun _ => {| moptions := []; mvalue := [] |} |};
     shell := {| classes := []; refreshDisabled := false;
                 loadingMessage := ("", ""); toasts := []; downloads := [] |};
     singleView := {| kpiCards := None; insightCards := None;
                      chartDisplay := Untouched; mapLayer := None;
                      tableBody := None; statusBar := None |};
     comparisonView := {| comparisonTitle := None; comparisonSubtitle := None;
                          comparisonKpis := None;
                          comparisonChartDisplay := Untouched;
                          comparisonTableBody := None |} |}.

(* ================================================================== *)
(** ** Vocabulary of the properties *)
(* ================================================================== *)

Import Formatter.

(** The states the page can be in: those a history of events leads to. *)
Definition reachable (s : State) : Prop := ∃ page es, s = run (init page) es.

(** *** Requests *)

Definition calls (s : State) : list call := (netlog (rt s)).*2.

Definition dashboard_call (c : call) : option FilterSelection :=
  match c with ApiDashboard f => Some f | _ => None end.
Definition comparison_call (c : call) : option ComparisonSelection :=
  match c with ApiComparison p => Some p | _ => None end.

Definition dashboard_calls (s : State) : list FilterSelection :=
  omap dashboard_call (calls s).
Definition comparison_calls (s : State) : list ComparisonSelection :=
  omap comparison_call (calls s).

(** The two operation classes, and the requests of each still in flight. *)
Inductive opclass := FilterApply | ComparisonLoad.

#[global] Instance opclass_eq_dec : EqDecision opclass.
Proof. solve_decision. Defined.

Definition class_of (w : pending) : option opclass :=
  match w with
  | PDashboard _ _ => Some FilterApply
  | PComparison => Some ComparisonLoad
  | _ => None
  end.

Definition live (c : opclass) (s : State) : list nat :=
  rid <$> filter (λ q, class_of (waiting q) = Some c) (inflight (rt s)).

Definition live_requests (s : State) : list nat := rid <$> inflight (rt s).

(** The comparison request [loadComparison] would send, if any. *)
Definition getComparison (s : State) : option ComparisonSelection :=
  ct ← val ComparisonType s; comparisonParams ct s.

(** *** Timers *)

Definition is_debounce (c : callback) : bool :=
  match c with CbApplyFilters | CbLoadComparison => true | _ => false end.

Definition debounce_timers (s : State) : list timer :=
  filter (λ t, is_debounce (cb t)) (timers (rt s)).

Definition timer_state (s : State) : list timer * nat * option nat :=
  (timers (rt s), nextTimer (rt s), filterDebounceTimer (js s)).

(** Timer identifiers are unique and never reused, and a debounce timer
    that is still set is the one [filterDebounceTimer] names. *)
Definition timers_ok (s : State) : Prop :=
  NoDup (tid <$> timers (rt s)) ∧
  (∀ t, t ∈ timers (rt s) → tid t < nextTimer (rt s)) ∧
  (∀ t, t ∈ timers (rt s) → is_debounce (cb t) →
        filterDebounceTimer (js s) = Some (tid t)).

(** Between two events the microtask queue is empty. *)
Definition wf (s : State) : Prop := timers_ok s ∧ rejected (rt s) = [].

(** *** Debouncing *)

Definition action (c : opclass) : callback :=
  match c with FilterApply => CbApplyFilters | ComparisonLoad => CbLoadComparison end.

(** The change events wired to a debounced function, by class. *)
Definition notifies (e : event) : option opclass :=
  match e with
  | EvChangeSingle (Year | Fy | Quarter) _ => Some FilterApply
  | EvChangeSingle (Period1 | Period2 | ComparisonDimension) _ => Some ComparisonLoad
  | EvChangeMulti (States | Districts | Rbms | Bdms | Branches | Brands) _ =>
      Some FilterApply
  | EvChangeMulti (CompRbms | CompStates | CompBrands | CompBranches) _ =>
      Some ComparisonLoad
  | _ => None
  end.

(** A burst: a first notification, then further ones, each after a gap. *)
Fixpoint burst (rest : list (nat * event)) : list event :=
  match rest with
  | [] => []
  | (gap, e) :: rest' => EvElapse gap :: e :: burst rest'
  end.

Fixpoint last_notification (e : event) (rest : list (nat * event)) : event :=
  match rest with
  | [] => e
  | (_, e') :: rest' => last_notification e' rest'
  end.

Definition within_quiet_period (rest : list (nat * event)) : Prop :=
  Forall (λ ge, ge.1 < 300 ∧ is_Some (notifies ge.2)) rest.

(** The requests a debounced action of class [c] sends when it runs in [s]. *)
Definition expected_dashboard (c : opclass) (s : State) : list FilterSelection :=
  match c with
  | FilterApply => if dataLoaded (js s) then [getFilters s] else []
  | ComparisonLoad => []
  end.

Definition expected_comparison (c : opclass) (s : State)
  : list ComparisonSelection :=
  match c with
  | FilterApply => []
  | ComparisonLoad =>
      if dataLoaded (js s) then option_list (getComparison s) else []
  end.

(** What the debounce machinery depends on and acts upon. *)
Definition dview (s : State) :=
  (dataLoaded (js s), controls (dom s), dashboard_calls s, comparison_calls s,
   filterDebounceTimer (js s), debounce_timers s, now (rt s)).

(** Nothing a debounced action reads or sends has changed. *)
Definition steady (s s' : State) : Prop :=
  dataLoaded (js s') = dataLoaded (js s) ∧ controls (dom s') = controls (dom s) ∧
  dashboard_calls s' = dashboard_calls s ∧ comparison_calls s' = comparison_calls s.

(** What a debounced function leaves alone. *)
Definition quiet (s s' : State) : Prop :=
  dataLoaded (js s') = dataLoaded (js s) ∧
  dashboard_calls s' = dashboard_calls s ∧ comparison_calls s' = comparison_calls s ∧
  now (rt s') = now (rt s).

(** One debounce timer is set, due at [d], for the action of class [c]. *)
Definition armed (c : opclass) (d : N) (s : State) : Prop :=
  wf s ∧ ∃ i, filterDebounceTimer (js s) = Some i ∧
              debounce_timers s = [{| tid := i; due := d; cb := action c |}].

Definition disarmed (s : State) : Prop := wf s ∧ debounce_timers s = [].

(** *** Formatter *)

Definition ends_with (suffix x : string) : bool :=
  let n := String.length x in
  let k := String.length suffix in
  (k <=? n)%nat && bool_decide (String.substring (n - k) k x = suffix).

(** The magnitude suffix a rendering carries. *)
Inductive magnitude := Plain | Thousand | Lakh | Crore.

Definition magnitude_of (out : string) : magnitude :=
  if ends_with " Cr" out then Crore
  else if ends_with " Lakh" out then Lakh
  else if ends_with " K" out then Thousand
  else Plain.

(** *** Bulk load *)

Definition ms (n : N) : nat := N.to_nat n.

Definition welcome_shown (s : State) : Prop :=
  ("#welcomeScreen", "hidden") ∉ classes (shell (dom s)).

(** A bulk load whose every attempt runs into the 300 s timeout: three
    cool-downs of 2 s between the four attempts. *)
Definition four_timeouts : State :=
  let timeout := EvElapse (ms 300000) in
  let cooldown := EvElapse (ms 2000) in
  run (init blank)
      [EvReady; timeout; cooldown; timeout; cooldown; timeout; cooldown; timeout].

(** A reply that is a failure: no connection, no JSON, or a refusal. *)
Definition failure (r : reply) : Prop :=
  match r with
  | NetworkFailure _ | Malformed _ | Refused _ => True
  | _ => False
  end.

(** *** A session for the examples *)

Definition sample_options : Options :=
  {| o_years := ["2025"; "2024"]; o_financial_years := ["2024-25"; "2023-24"];
     o_quarters := ["Q1"; "Q2"]; o_states := ["KL"]; o_districts := ["Kochi"];
     o_rbms := ["R1"]; o_bdms := ["B1"]; o_branches := ["Main"];
     o_brands := ["Acme"] |}.

Definition sample (n : nat) : json :=
  {| ident := n; props := ["labels"; "rbm"; "states"; "districts"; "chart"] |}.

(** A dashboard reply whose bundle has the monthly series and no map. *)
Definition sample_dashboard (n : nat) : reply :=
  Dashboard (sample n) None {[ "monthly" := sample (n + 1) ]} (sample (n + 2)).

(** The page is ready, the bulk load has succeeded (request 0) and the
    first dashboard reply (request 1) has been rendered. *)
Definition session : State :=
  run (init blank)
      [EvReady; EvReply 0 (Loaded sample_options "ok"); EvReply 1 (sample_dashboard 10)].

(** Three immediate filter applications in a row (requests 2, 3 and 4),
    then the replies to 4 and to 3, in that order. *)
Definition two_applies : State :=
  run session [EvChangeSingle PeriodType (Some "year");
               EvChangeSingle PeriodType (Some "fy")].

Definition three_applies : State :=
  step two_applies (EvChangeSingle PeriodType (Some "quarter")).

Definition stale_dashboard : State :=
  run three_applies [EvReply 4 (sample_dashboard 40); EvReply 3 (sample_dashboard 30)].

(** Two comparison loads in a row (requests 2 and 3), then the replies to
    3 and to 2, in that order. *)
Definition two_comparisons : State :=
  run session [EvChangeSingle ComparisonType (Some "year");
               EvChangeSingle ComparisonType (Some "fy")].

Definition stale_comparison : State :=
  run two_comparisons
      [EvReply 3 (Comparison (sample 50)); EvReply 2 (Comparison (sample 60))].

(** An export asked for before any data was loaded, and its file. *)
Definition early_export : State := step (init blank) EvClickExport.

Definition early_export_done : State :=
  step early_export (EvReply 0 (Http true (sample 7))).

(** A filter change, then a comparison change 100 ms later, then 300 ms of
    quiet. *)
Definition crossed_notifications : State :=
  run session [EvChangeMulti States ["KL"]; EvElapse 100;
               EvChangeMulti CompStates ["KL"]; EvElapse 300].

(** A filter application that fails on the network. *)
Definition failed_apply : State :=
  run session [EvChangeSingle PeriodType (Some "year");
               EvReply 2 (NetworkFailure "Failed to fetch")].

(** The map tab is opened and its data arrive (request 2); then the
    monthly tab and the map tab again. *)
Definition map_viewed : State :=
  run session [EvShowChart "map"; EvReply 2 (MapData (Some (sample 70)))].

Definition map_viewed_again : State :=
  run map_viewed [EvShowChart "monthly"; EvShowChart "map"].

(** A filter application in flight (request 2). *)
Definition applying : State :=
  step session (EvChangeSingle PeriodType (Some "year")).

(** An export in flight (request 2). *)
Definition exporting : State := step session EvClickExport.

(** The map tab just opened: its data are on their way (request 2). *)
Definition map_opened : State := step session (EvShowChart "map").

(** *** Reset *)

(** The selection [getFilters] reads after a reset. *)
Definition default_filters : FilterSelection :=
  {| period_type := Some ""; year := Some ""; fy := Some ""; quarter := Some "";
     states := []; districts := []; rbms := []; bdms := []; branches := [];
     brands := [] |}.

(** The comparison controls: type, dimension, periods and the four
    multi-selects. *)
Definition comparison_controls (s : State) :=
  (val ComparisonType s, val ComparisonDimension s, val Period1 s, val Period2 s,
   vals CompRbms s, vals CompStates s, vals CompBrands s, vals CompBranches s).

(** *** Charts and errors *)

(** The series has the property the renderer of its chart type draws. *)
Definition drawable (chartType : string) (d : json) : bool :=
  bool_decide (chartType = "monthly") && has d "labels"
  || bool_decide (chartType = "hierarchy") && has d "rbm"
  || bool_decide (chartType = "geographic") && has d "states"
  || bool_decide (chartType = "product") && has d "labels"
  || bool_decide (chartType = "rbm") && has d "labels".

(** A failed interactive request: filter-apply, comparison-load or
    insights-refresh with a failure reply, export with no answer or with an
    answer that is not OK. *)
Definition interactive_failure (w : pending) (r : reply) : Prop :=
  match w with
  | PDashboard _ _ | PComparison | PInsights => failure r
  | PExport =>
      match r with
      | NetworkFailure _ | Http false _ => True
      | _ => False
      end
  | _ => False
  end.

(** The toast a failed interactive request ends with.  The filter
    application that [loadData] awaits lets [loadData] announce its own
    success. *)
Definition notice (w : pending) : list (string * string) :=
  match w with
  | PExport => [("Export failed. Please try again.", "error")]
  | PDashboard _ (Some m) => [("Data loaded successfully! " +:+ m, "success")]
  | _ => []
  end.

(** *** Tactics *)

Ltac no_case x :=
  lazymatch x with
  | context [match _ with _ => _ end] => fail
  | context [if _ then _ else _] => fail
  | _ => idtac
  end.

(** Split on the innermost tests, then compute. *)
Ltac frame :=
  intros;
  repeat match goal with
  | |- context [match ?x with _ => _ end] => no_case x; destruct x eqn:?
  | |- context [if ?x then _ else _] => no_case x; destruct x eqn:?
  end; try reflexivity.

Create HintDb frames discriminated.

(* ================================================================== *)
(** ** Invariant of the timers *)
(* ================================================================== *)

Lemma timers_ok_frame s s' : timer_state s' = timer_state s → timers_ok s → timers_ok s'.
Proof.
  unfold timer_state, timers_ok. intros [= E1 E2 E3] (H1 & H2 & H3).
  rewrite ?E1, ?E2, ?E3; auto.
Qed.

(** Strip a call that leaves the timers alone. *)
Ltac peel :=
  lazymatch goal with
  | |- timers_ok (?f ?x) => apply (timers_ok_frame x); [solve [auto with frames nocore]|]
  end.

Section Frames.
Implicit Types (s : State).

Lemma ts_on_dom f s : timer_state (on_dom f s) = timer_state s.
Proof. reflexivity. Qed.
Lemma ts_addClass x c s : timer_state (addClass x c s) = timer_state s.
Proof. reflexivity. Qed.
Lemma ts_removeClass x c s : timer_state (removeClass x c s) = timer_state s.
Proof. reflexivity. Qed.
Lemma ts_set_val i v s : timer_state (set_val i v s) = timer_state s.
Proof. reflexivity. Qed.
Lemma ts_set_vals i v s : timer_state (set_vals i v s) = timer_state s.
Proof. reflexivity. Qed.
Lemma ts_showToast m t s : timer_state (showToast m t s) = timer_state s.
Proof. reflexivity. Qed.
Lemma ts_updateLoadingMessage m t s : timer_state (updateLoadingMessage m t s) = timer_state s.
Proof. reflexivity. Qed.
Lemma ts_exportData s : timer_state (exportData s) = timer_state s.
Proof. reflexivity. Qed.
Lemma ts_refreshInsights s : timer_state (refreshInsights s) = timer_state s.
Proof. reflexivity. Qed.
Lemma ts_forget_request c s : timer_state (forget_request c s) = timer_state s.
Proof. reflexivity. Qed.
Lemma ts_set_now f s : timer_state (on_rt (λ r, set_now (f r) r) s) = timer_state s.
Proof. reflexivity. Qed.
Lemma ts_set_rejected l s : timer_state (on_rt (set_rejected l) s) = timer_state s.
Proof. reflexivity. Qed.

Lemma ts_applyFilters aw s : timer_state (applyFilters aw s) = timer_state s.
Proof. unfold applyFilters, resume, abort. frame. Qed.
Lemma ts_loadComparison s : timer_state (loadComparison s) = timer_state s.
Proof. unfold loadComparison. frame. Qed.
Lemma ts_showChart c s : timer_state (showChart c s) = timer_state s.
Proof. unfold showChart. frame. Qed.
Lemma ts_setMode m s : timer_state (setMode m s) = timer_state s.
Proof. unfold setMode. case_bool_decide; [rewrite ts_applyFilters | rewrite ts_loadComparison]; reflexivity. Qed.
Lemma ts_onPeriodTypeChange s : timer_state (onPeriodTypeChange s) = timer_state s.
Proof. unfold onPeriodTypeChange. rewrite ts_applyFilters. frame. Qed.
Lemma ts_populateComparisonPeriods s :
  timer_state (match populateComparisonPeriods s with Returned s' | Thrown _ s' => s' end) = timer_state s.
Proof. unfold populateComparisonPeriods. frame. Qed.
Lemma ts_onComparisonTypeChange s : timer_state (onComparisonTypeChange s) = timer_state s.
Proof.
  unfold onComparisonTypeChange. pose proof (ts_populateComparisonPeriods s) as H.
  destruct (populateComparisonPeriods s); [rewrite ts_loadComparison|]; done.
Qed.
Lemma ts_abort c s : timer_state (abort c s) = timer_state s.
Proof. unfold abort. frame. Qed.
Lemma ts_applyFilters_catch e aw s : timer_state (applyFilters_catch e aw s) = timer_state s.
Proof. unfold applyFilters_catch, applyFilters_finally, resume. frame. Qed.
Lemma ts_applyFilters_reply f aw r s s' :
  applyFilters_reply f aw r s = Some s' → timer_state s' = timer_state s.
Proof.
  unfold applyFilters_reply, applyFilters_catch, applyFilters_finally, resume.
  intros H. destruct r; simplify_eq; frame.
Qed.
Lemma ts_preserveSelection i o s : timer_state (preserveSelection i o s) = timer_state s.
Proof. unfold preserveSelection. frame. Qed.
Lemma ts_refill i o s : timer_state (refill i o s) = timer_state s.
Proof. unfold refill. frame. Qed.
Lemma ts_populateFilters o s :
  timer_state (match populateFilters o s with Returned s' | Thrown _ s' => s' end) = timer_state s.
Proof.
  unfold populateFilters. rewrite ts_populateComparisonPeriods.
  rewrite !ts_preserveSelection, !ts_refill. reflexivity.
Qed.

Lemma ts_settle_other q r s s' :
  (∀ f n t, waiting q ≠ PLoad f n t) →
  settle q r s = Some s' → timer_state s' = timer_state s.
Proof.
  intros Hq. unfold settle. destruct (waiting q) eqn:E.
  - by destruct (Hq forceRefresh retryCount timeoutId).
  - apply ts_applyFilters_reply.
  - unfold refreshInsights_reply. intros H. destruct r; simplify_eq; frame.
  - unfold loadChart_reply. intros H. destruct r as [| | | | | |[]| | |]; simplify_eq; frame.
  - unfold loadMapData_reply. intros H. destruct r as [| | | | | | |[]| |]; simplify_eq; frame.
  - unfold loadComparison_reply. intros H. destruct r; simplify_eq; frame.
  - unfold exportData_reply. intros H. destruct r as [| | | | | | | | |[]]; simplify_eq; frame.
Qed.

(** Timers set and cleared. *)

Lemma timers_ok_clearTimeout t s : timers_ok s → timers_ok (clearTimeout t s).
Proof.
  intros (H1 & H2 & H3). destruct t as [i|]; [|done]. split_and!; simpl.
  - eapply sublist_NoDup; [exact H1|apply fmap_sublist, sublist_filter].
  - intros t [_ ?]%list_elem_of_filter. auto.
  - intros t [_ ?]%list_elem_of_filter. auto.
Qed.

Lemma NoDup_tid_snoc (l : list timer) n d c :
  NoDup (tid <$> l) → (∀ t, t ∈ l → tid t < n) →
  NoDup (tid <$> l ++ [{| tid := n; due := d; cb := c |}]).
Proof.
  intros H1 H2. rewrite fmap_app. apply NoDup_app. split_and!; [done| |apply NoDup_singleton].
  intros x (t & Hx & Ht)%list_elem_of_fmap Hn. simpl in Hn.
  apply list_elem_of_singleton in Hn. apply H2 in Ht. lia.
Qed.

Lemma timers_ok_setTimeout c d s :
  is_debounce c = false → timers_ok s → timers_ok (setTimeout c d s).2.
Proof.
  intros Hc (H1 & H2 & H3). split_and!; simpl.
  - by apply NoDup_tid_snoc.
  - intros t [Ht| ->%list_elem_of_singleton]%elem_of_app; simpl; [apply H2 in Ht|]; lia.
  - intros t [Ht| ->%list_elem_of_singleton]%elem_of_app; simpl; [auto|].
    by rewrite Hc.
Qed.

(** What both debounced functions do to the timers: the one timer the
    variable names is cleared, a new one is set and named. *)
Lemma timers_ok_rearm c d s s' :
  timer_state s' =
    (filter (λ x, Some (tid x) ≠ filterDebounceTimer (js s)) (timers (rt s))
       ++ [{| tid := nextTimer (rt s); due := d; cb := c |}],
     S (nextTimer (rt s)), Some (nextTimer (rt s))) →
  timers_ok s → timers_ok s'.
Proof.
  unfold timer_state, timers_ok. intros [= E1 E2 E3] (H1 & H2 & H3). rewrite ?E1, ?E2, ?E3. split_and!.
  - apply NoDup_tid_snoc.
    + eapply sublist_NoDup; [exact H1|apply fmap_sublist, sublist_filter].
    + intros t [_ ?]%list_elem_of_filter. auto.
  - intros t [[_ Ht]%list_elem_of_filter| ->%list_elem_of_singleton]%elem_of_app;
      simpl; [apply H2 in Ht|]; lia.
  - intros t [[Hn Ht]%list_elem_of_filter| ->%list_elem_of_singleton]%elem_of_app Hd;
      simpl; [|done].
    by rewrite (H3 t Ht Hd) in Hn.
Qed.

Lemma clearTimeout_timers t s :
  timers (rt (clearTimeout t s)) = filter (λ x, Some (tid x) ≠ t) (timers (rt s)).
Proof.
  destruct t as [i|]; simpl.
  - apply list_filter_iff. intros x. naive_solver.
  - induction (timers (rt s)) as [|x l IH]; [done|].
    rewrite filter_cons_True by done. by f_equal.
Qed.

Lemma ts_debouncedApplyFilters s :
  timer_state (debouncedApplyFilters s) =
    (filter (λ x, Some (tid x) ≠ filterDebounceTimer (js s)) (timers (rt s))
       ++ [{| tid := nextTimer (rt s); due := (now (rt s) + 300)%N; cb := CbApplyFilters |}],
     S (nextTimer (rt s)), Some (nextTimer (rt s))).
Proof.
  unfold debouncedApplyFilters, timer_state; simpl.
  rewrite <- clearTimeout_timers. by destruct (filterDebounceTimer (js s)).
Qed.

Lemma ts_debouncedLoadComparison s :
  timer_state (debouncedLoadComparison s) =
    (filter (λ x, Some (tid x) ≠ filterDebounceTimer (js s)) (timers (rt s))
       ++ [{| tid := nextTimer (rt s); due := (now (rt s) + 300)%N; cb := CbLoadComparison |}],
     S (nextTimer (rt s)), Some (nextTimer (rt s))).
Proof.
  unfold debouncedLoadComparison, timer_state; simpl.
  rewrite <- clearTimeout_timers. by destruct (filterDebounceTimer (js s)).
Qed.

Lemma timers_ok_debouncedApplyFilters s :
  timers_ok s → timers_ok (debouncedApplyFilters s).
Proof. apply timers_ok_rearm with (1 := ts_debouncedApplyFilters s). Qed.

Lemma timers_ok_debouncedLoadComparison s :
  timers_ok s → timers_ok (debouncedLoadComparison s).
Proof. apply timers_ok_rearm with (1 := ts_debouncedLoadComparison s). Qed.

(** The bulk load. *)

Lemma ts_loadData f n s :
  timer_state (loadData f n s) =
  timer_state (setTimeout (CbAbortLoad (nextRequest (rt s))) 300000 s).2.
Proof. unfold loadData. by destruct f. Qed.

Lemma timers_ok_loadData f n s : timers_ok s → timers_ok (loadData f n s).
Proof.
  intros H. eapply timers_ok_frame; [apply ts_loadData|].
  by apply timers_ok_setTimeout.
Qed.

Lemma timers_ok_loadData_catch f n e s :
  timers_ok s → timers_ok (loadData_catch f n e s).
Proof.
  intros H. unfold loadData_catch. case_match.
  - eapply timers_ok_frame; [|apply (timers_ok_setTimeout (CbRetryLoad f n) 2000 s); done].
    reflexivity.
  - eapply timers_ok_frame; [|exact H]. reflexivity.
Qed.

Lemma timers_ok_loadData_reply f n t r s s' :
  loadData_reply f n t r s = Some s' → timers_ok s → timers_ok s'.
Proof.
  unfold loadData_reply. intros E H.
  destruct r as [m|m|err|o msg| | | | | |]; simplify_eq.
  - by apply timers_ok_loadData_catch.
  - by apply timers_ok_loadData_catch, timers_ok_clearTimeout.
  - by apply timers_ok_loadData_catch, timers_ok_clearTimeout.
  - set (s0 := on_js (set_filterOptions (Some o))
                 (on_js (set_dataLoaded true) (clearTimeout (Some t) s))).
    assert (timers_ok s0) as H0.
    { apply (timers_ok_frame (clearTimeout (Some t) s)); [done|].
      by apply timers_ok_clearTimeout. }
    pose proof (ts_populateFilters o s0) as Hp.
    destruct (populateFilters o s0) as [s1|e s1].
    + apply (timers_ok_frame s0); [|done]. by rewrite ts_applyFilters.
    + apply timers_ok_loadData_catch. by apply (timers_ok_frame s0).
Qed.

Lemma timers_ok_settle q r s s' :
  settle q r s = Some s' → timers_ok s → timers_ok s'.
Proof.
  intros E H. destruct (waiting q) eqn:Hq.
  1: { unfold settle in E. rewrite Hq in E. by eapply timers_ok_loadData_reply. }
  all: eapply timers_ok_frame; [|exact H];
       eapply ts_settle_other; [|exact E]; intros ???; congruence.
Qed.

Lemma timers_ok_settle_abort q s : timers_ok s → timers_ok (settle_abort q s).
Proof.
  intros H. unfold settle_abort. destruct (waiting q); try done.
  - by apply timers_ok_loadData_catch.
  - eapply timers_ok_frame; [apply ts_applyFilters_catch|done].
Qed.

Lemma rejected_settle_abort q s :
  rejected (rt (settle_abort q s)) = rejected (rt s).
Proof.
  unfold settle_abort, loadData_catch, applyFilters_catch, applyFilters_finally, resume.
  frame.
Qed.

Lemma wf_drain s : timers_ok s → wf (drain s).
Proof.
  intros H. unfold drain.
  assert (wf (on_rt (set_rejected []) s)) as H0.
  { split; [|done]. eapply timers_ok_frame; [|exact H]. reflexivity. }
  revert H0. generalize (on_rt (set_rejected []) s). clear H.
  induction (rejected (rt s)) as [|q l IH]; intros s0 H0; simpl; [done|].
  apply IH. destruct H0 as [H1 H2]. split.
  - by apply timers_ok_settle_abort.
  - by rewrite rejected_settle_abort.
Qed.

Lemma drain_idle s : rejected (rt s) = [] → drain s = s.
Proof.
  intros H. unfold drain. rewrite H. simpl.
  destruct s as [j d r]. unfold on_rt. simpl in *. f_equal.
  destruct r; simpl in *. by subst.
Qed.

Lemma timers_ok_run_callback c s : timers_ok s → timers_ok (run_callback c s).
Proof.
  intros H. destruct c; simpl.
  - eapply timers_ok_frame; [apply ts_applyFilters|done].
  - eapply timers_ok_frame; [apply ts_loadComparison|done].
  - eapply timers_ok_frame; [apply ts_abort|done].
  - eapply timers_ok_frame; [|apply (timers_ok_loadData forceRefresh (retryCount + 1) s H)].
    reflexivity.
Qed.

Lemma wf_fire i s : wf s → wf (fire i s).
Proof.
  intros [H1 H2]. unfold fire. destruct (list_find _ _) as [[k t]|]; [|done].
  by apply wf_drain, timers_ok_run_callback, timers_ok_clearTimeout.
Qed.

Lemma wf_fire_all l s : wf s → wf (foldl (λ s i, fire i s) s l).
Proof.
  revert s. induction l as [|i l IH]; intros s H; simpl; [done|].
  by apply IH, wf_fire.
Qed.

Lemma wf_tick s : wf s → wf (tick s).
Proof.
  intros [H1 H2]. apply wf_fire_all. split; [|done].
  eapply timers_ok_frame; [|exact H1]. reflexivity.
Qed.

Lemma wf_elapse ms s : wf s → wf (elapse ms s).
Proof. revert s. induction ms as [|ms IH]; intros s H; simpl; [done|]. by apply IH, wf_tick. Qed.

Hint Resolve ts_on_dom ts_addClass ts_removeClass ts_set_val ts_set_vals
  ts_showToast ts_updateLoadingMessage ts_exportData ts_refreshInsights
  ts_forget_request ts_applyFilters ts_loadComparison ts_showChart ts_setMode
  ts_onPeriodTypeChange ts_onComparisonTypeChange ts_abort : frames.

Lemma timers_ok_resetFilters s : timers_ok s → timers_ok (resetFilters s).
Proof.
  intros H. unfold resetFilters. do 2 peel.
  do 4 apply timers_ok_debouncedLoadComparison. do 8 peel.
  do 6 apply timers_ok_debouncedApplyFilters. by do 13 peel.
Qed.

Lemma timers_ok_handle e s : wf s → timers_ok (handle e s).
Proof.
  intros [H R]. destruct e; cbn [handle].
  - apply timers_ok_loadData. by peel.
  - case_match; [done|]. by apply timers_ok_loadData.
  - by peel.
  - by apply timers_ok_resetFilters.
  - by peel.
  - by peel.
  - by peel.
  - destruct i; cbn [single_handler].
    1, 5: by do 2 peel.
    1-3: apply timers_ok_debouncedApplyFilters; by peel.
    all: apply timers_ok_debouncedLoadComparison; by peel.
  - destruct i; cbn [multi_handler].
    1-6: apply timers_ok_debouncedApplyFilters; by peel.
    all: apply timers_ok_debouncedLoadComparison; by peel.
  - destruct (lookup_request _ _) as [q|]; [|done].
    destruct (settle _ _ _) as [s'|] eqn:E; simpl; [|done].
    eapply timers_ok_settle; [exact E|]. by peel.
  - by apply wf_elapse.
Qed.

Lemma wf_step s e : wf s → wf (step s e).
Proof. intros H. by apply wf_drain, timers_ok_handle. Qed.

Lemma wf_init page : wf (init page).
Proof.
  split; [|done]. split_and!; simpl.
  - apply NoDup_nil_2.
  - intros t Ht. by apply elem_of_nil in Ht.
  - intros t Ht. by apply elem_of_nil in Ht.
Qed.

Lemma wf_run s es : wf s → wf (run s es).
Proof. revert s. induction es as [|e es IH]; intros s H; simpl; [done|]. by apply IH, wf_step. Qed.

Lemma reachable_wf s : reachable s → wf s.
Proof. intros (page & es & ->). apply wf_run, wf_init. Qed.
End Frames.

(* ================================================================== *)
(** ** Debouncing *)
(* ================================================================== *)

Lemma filter_none {A} (P : A → Prop) `{!∀ x, Decision (P x)} (l : list A) :
  (∀ x, x ∈ l → ¬ P x) → filter P l = [].
Proof.
  induction l as [|x l IH]; intros Hall; [done|].
  rewrite filter_cons_False by (apply Hall; left).
  apply IH. intros y Hy. apply Hall. by right.
Qed.

Lemma filter_ext_in {A} (P Q : A → Prop) `{!∀ x, Decision (P x)} `{!∀ x, Decision (Q x)}
    (l : list A) :
  (∀ x, x ∈ l → P x ↔ Q x) → filter P l = filter Q l.
Proof.
  induction l as [|x l IH]; intros Hall; [done|].
  rewrite !filter_cons. rewrite IH by (intros y Hy; apply Hall; by right).
  assert (P x ↔ Q x) as Hx by (apply Hall; left).
  destruct (decide (P x)) as [p|p], (decide (Q x)) as [q|q]; tauto || done.
Qed.

Lemma tid_inj_on (l : list timer) t t' :
  NoDup (tid <$> l) → t ∈ l → t' ∈ l → tid t = tid t' → t = t'.
Proof.
  induction l as [|x l IH]; csimpl; [by intros _ ?%elem_of_nil|].
  intros [Hx Hl]%NoDup_cons [->|Ht]%elem_of_cons [->|Ht']%elem_of_cons E; auto.
  - destruct Hx. rewrite E. by apply list_elem_of_fmap_2.
  - destruct Hx. rewrite <- E. by apply list_elem_of_fmap_2.
Qed.

Ltac peel_with lem :=
  lazymatch goal with
  | |- timers_ok (?f ?x) => apply (timers_ok_frame x); [apply lem|]
  end.

Section DebounceFrames.
Implicit Types (s : State).

Lemma dv_on_shell f s : dview (on_shell f s) = dview s.
Proof. reflexivity. Qed.
Lemma dv_addClass x c s : dview (addClass x c s) = dview s.
Proof. reflexivity. Qed.
Lemma dv_removeClass x c s : dview (removeClass x c s) = dview s.
Proof. reflexivity. Qed.
Lemma dv_showToast m t s : dview (showToast m t s) = dview s.
Proof. reflexivity. Qed.
Lemma dv_updateLoadingMessage m t s : dview (updateLoadingMessage m t s) = dview s.
Proof. reflexivity. Qed.
Lemma dv_set_rejected l s : dview (on_rt (set_rejected l) s) = dview s.
Proof. reflexivity. Qed.
Lemma dv_abort c s : dview (abort c s) = dview s.
Proof. unfold abort. by case_match. Qed.

Lemma dv_setTimeout c d s :
  is_debounce c = false → dview (setTimeout c d s).2 = dview s.
Proof.
  intros Hc. unfold dview, debounce_timers; simpl.
  rewrite filter_app, (filter_none _ [_]); [by rewrite app_nil_r|].
  intros x ->%list_elem_of_singleton. simpl. rewrite Hc. auto.
Qed.

Lemma dv_fetch c w s :
  dashboard_call c = None → comparison_call c = None →
  dview (fetch c w s) = dview s.
Proof.
  intros H1 H2. unfold dview, dashboard_calls, comparison_calls, calls; simpl.
  rewrite fmap_app, !omap_app; simpl. rewrite H1, H2, !app_nil_r. done.
Qed.

Lemma dv_loadData f n s : dview (loadData f n s) = dview s.
Proof.
  unfold loadData. cbn [fst snd].
  rewrite (surjective_pairing (setTimeout _ _ _)).
  rewrite dv_fetch by done. rewrite dv_setTimeout by done.
  rewrite dv_updateLoadingMessage, dv_on_shell. by destruct f.
Qed.

Lemma dv_loadData_catch f n e s : dview (loadData_catch f n e s) = dview s.
Proof.
  unfold loadData_catch. case_match.
  - by rewrite dv_setTimeout, dv_updateLoadingMessage.
  - by rewrite dv_on_shell, dv_showToast, dv_removeClass.
Qed.

Lemma dv_applyFilters_catch e aw s : dview (applyFilters_catch e aw s) = dview s.
Proof. unfold applyFilters_catch, applyFilters_finally, resume. by destruct aw. Qed.

Lemma dv_settle_abort q s : dview (settle_abort q s) = dview s.
Proof.
  unfold settle_abort. destruct (waiting q); try done.
  - apply dv_loadData_catch.
  - apply dv_applyFilters_catch.
Qed.

Lemma dv_drain s : dview (drain s) = dview s.
Proof.
  unfold drain. rewrite <- (dv_set_rejected [] s).
  generalize (on_rt (set_rejected []) s).
  induction (rejected (rt s)) as [|q l IH]; intros s0; simpl; [done|].
  by rewrite IH, dv_settle_abort.
Qed.

Lemma dv_clearTimeout_other i s :
  (∀ t, t ∈ timers (rt s) → tid t = i → ¬ is_debounce (cb t)) →
  dview (clearTimeout (Some i) s) = dview s.
Proof.
  intros H. unfold dview, debounce_timers; simpl. f_equal. f_equal.
  rewrite list_filter_filter. apply filter_ext_in. intros t Ht. split; [tauto|].
  intros Hd. split; [done|]. intros E. by apply (H t Ht E).
Qed.

(** A timer other than the debounce timer goes off. *)
Lemma dv_fire_other i s :
  timers_ok s →
  (∀ t, t ∈ timers (rt s) → tid t = i → ¬ is_debounce (cb t)) →
  dview (fire i s) = dview s.
Proof.
  intros Hok H. unfold fire.
  destruct (list_find _ _) as [[k t]|] eqn:E; [|done].
  apply list_find_Some in E as (Hk & Ht & _).
  apply list_elem_of_lookup_2 in Hk.
  rewrite dv_drain. rewrite <- (dv_clearTimeout_other i s H).
  generalize (clearTimeout (Some i) s). intros s0.
  specialize (H t Hk Ht). destruct (cb t); simpl in *; try done.
  - apply dv_abort.
  - unfold loadData_retry. by rewrite dv_on_shell, dv_loadData.
Qed.

(** *** A notification arms the timer *)

Lemma debounce_timers_rearm c d s s' :
  timers_ok s →
  timer_state s' =
    (filter (λ x, Some (tid x) ≠ filterDebounceTimer (js s)) (timers (rt s))
       ++ [{| tid := nextTimer (rt s); due := d; cb := action c |}],
     S (nextTimer (rt s)), Some (nextTimer (rt s))) →
  filterDebounceTimer (js s') = Some (nextTimer (rt s)) ∧
  debounce_timers s' = [{| tid := nextTimer (rt s); due := d; cb := action c |}].
Proof.
  intros (_ & _ & H3). unfold timer_state, debounce_timers. intros [= -> _ ->].
  split; [done|]. rewrite filter_app, filter_none.
  - rewrite filter_cons_True by (by destruct c). done.
  - intros t [Hn Ht]%list_elem_of_filter Hd. rewrite (H3 t Ht Hd) in Hn. by destruct Hn.
Qed.

Lemma rejected_debouncedApplyFilters s :
  rejected (rt (debouncedApplyFilters s)) = rejected (rt s).
Proof. unfold debouncedApplyFilters. by destruct (filterDebounceTimer (js s)). Qed.

Lemma rejected_debouncedLoadComparison s :
  rejected (rt (debouncedLoadComparison s)) = rejected (rt s).
Proof. unfold debouncedLoadComparison. by destruct (filterDebounceTimer (js s)). Qed.

Lemma armed_debouncedApplyFilters s :
  wf s → armed FilterApply (now (rt s) + 300) (debouncedApplyFilters s).
Proof.
  intros [H R]. split.
  - split; [by apply timers_ok_debouncedApplyFilters|].
    by rewrite rejected_debouncedApplyFilters.
  - eexists. apply (debounce_timers_rearm FilterApply _ s); [done|].
    apply ts_debouncedApplyFilters.
Qed.

Lemma armed_debouncedLoadComparison s :
  wf s → armed ComparisonLoad (now (rt s) + 300) (debouncedLoadComparison s).
Proof.
  intros [H R]. split.
  - split; [by apply timers_ok_debouncedLoadComparison|].
    by rewrite rejected_debouncedLoadComparison.
  - eexists. apply (debounce_timers_rearm ComparisonLoad _ s); [done|].
    apply ts_debouncedLoadComparison.
Qed.

Lemma quiet_debouncedApplyFilters s : quiet s (debouncedApplyFilters s).
Proof. unfold debouncedApplyFilters. by destruct (filterDebounceTimer (js s)). Qed.

Lemma quiet_debouncedLoadComparison s : quiet s (debouncedLoadComparison s).
Proof. unfold debouncedLoadComparison. by destruct (filterDebounceTimer (js s)). Qed.

Lemma controls_debouncedApplyFilters s :
  controls (dom (debouncedApplyFilters s)) = controls (dom s).
Proof. unfold debouncedApplyFilters. by destruct (filterDebounceTimer (js s)). Qed.

Lemma controls_debouncedLoadComparison s :
  controls (dom (debouncedLoadComparison s)) = controls (dom s).
Proof. unfold debouncedLoadComparison. by destruct (filterDebounceTimer (js s)). Qed.

Lemma notify_filter s s0 :
  wf s0 → quiet s s0 →
  let s' := drain (debouncedApplyFilters s0) in
  armed FilterApply (now (rt s) + 300) s' ∧ quiet s s'.
Proof.
  intros H0 (Q1 & Q2 & Q3 & Q4). simpl.
  pose proof (armed_debouncedApplyFilters s0 H0) as Ha.
  rewrite drain_idle by apply Ha. rewrite <- Q4.
  destruct (quiet_debouncedApplyFilters s0) as (? & ? & ? & ?).
  split; [done|]. split_and!; congruence.
Qed.

Lemma notify_comparison s s0 :
  wf s0 → quiet s s0 →
  let s' := drain (debouncedLoadComparison s0) in
  armed ComparisonLoad (now (rt s) + 300) s' ∧ quiet s s'.
Proof.
  intros H0 (Q1 & Q2 & Q3 & Q4). simpl.
  pose proof (armed_debouncedLoadComparison s0 H0) as Ha.
  rewrite drain_idle by apply Ha. rewrite <- Q4.
  destruct (quiet_debouncedLoadComparison s0) as (? & ? & ? & ?).
  split; [done|]. split_and!; congruence.
Qed.

Lemma notify_armed e c s :
  wf s → notifies e = Some c →
  armed c (now (rt s) + 300) (step s e) ∧ quiet s (step s e).
Proof.
  intros [Hok R] He. unfold step.
  destruct e as [| | | | | | |i v|i v| |]; try done;
    destruct i; simplify_eq/=;
    (apply notify_filter || apply notify_comparison);
    (split; [by peel|done]) || done.
Qed.

(** *** Time passing *)

Lemma dview_inv s s' :
  dview s' = dview s →
  dataLoaded (js s') = dataLoaded (js s) ∧ controls (dom s') = controls (dom s) ∧
  dashboard_calls s' = dashboard_calls s ∧ comparison_calls s' = comparison_calls s ∧
  filterDebounceTimer (js s') = filterDebounceTimer (js s) ∧
  debounce_timers s' = debounce_timers s ∧ now (rt s') = now (rt s).
Proof. unfold dview. by intros [= -> -> -> -> -> -> ->]. Qed.

Lemma fire_all_other l s :
  wf s →
  (∀ i t, i ∈ l → t ∈ debounce_timers s → tid t ≠ i) →
  wf (foldl (λ s i, fire i s) s l) ∧
  dview (foldl (λ s i, fire i s) s l) = dview s.
Proof.
  revert s. induction l as [|i l IH]; intros s Hwf H; simpl; [done|].
  assert (dview (fire i s) = dview s) as E.
  { apply dv_fire_other; [apply Hwf|]. intros t Ht Hi Hd.
    apply (H i t); [left| |done]. by apply list_elem_of_filter. }
  destruct (IH (fire i s)) as [H1 H2].
  - by apply wf_fire.
  - intros j t Hj Ht. apply (H j t); [by right|].
    apply dview_inv in E as (_ & _ & _ & _ & _ & <- & _). done.
  - split; [done|]. by rewrite H2.
Qed.

Lemma elem_of_debounce_timers t s :
  t ∈ debounce_timers s → t ∈ timers (rt s).
Proof. by intros [_ ?]%list_elem_of_filter. Qed.

(** A millisecond that does not reach the due time. *)
Lemma tick_idle c d s :
  armed c d s → (now (rt s) + 1 < d)%N →
  armed c d (tick s) ∧
  dview (tick s) = dview (on_rt (λ r, set_now (now r + 1)%N r) s).
Proof.
  intros [[Hok R] (i & Hi & Hd)] Hlt. unfold tick.
  set (s0 := on_rt (λ r, set_now (now r + 1)%N r) s).
  destruct (fire_all_other
    (tid <$> filter (λ t, (due t ≤ now (rt s0))%N) (timers (rt s0))) s0) as [H1 H2].
  - split; [|done]. by apply (timers_ok_frame s).
  - intros j t (t0 & -> & [Hdue Ht0]%list_elem_of_filter)%list_elem_of_fmap Ht E.
    change (debounce_timers s0) with (debounce_timers s) in Ht.
    assert (t = t0) as ->.
    { destruct Hok as (Hnd & _). eapply tid_inj_on; eauto.
      by apply elem_of_debounce_timers. }
    rewrite Hd in Ht. apply list_elem_of_singleton in Ht. subst t0.
    simpl in Hdue. lia.
  - split; [|done]. split; [done|]. exists i.
    apply dview_inv in H2 as (_ & _ & _ & _ & -> & -> & _). done.
Qed.

Lemma steady_refl s : steady s s.
Proof. done. Qed.

Lemma steady_trans s1 s2 s3 : steady s1 s2 → steady s2 s3 → steady s1 s3.
Proof. unfold steady. intros (?&?&?&?) (?&?&?&?). split_and!; congruence. Qed.

Lemma dview_steady s s' : dview s' = dview s → steady s s'.
Proof. intros (?&?&?&?&_)%dview_inv. done. Qed.

Lemma getFilters_controls s s' :
  controls (dom s') = controls (dom s) → getFilters s' = getFilters s.
Proof. unfold getFilters, val, vals. by intros ->. Qed.

Lemma getComparison_controls s s' :
  controls (dom s') = controls (dom s) → getComparison s' = getComparison s.
Proof. unfold getComparison, comparisonParams, val, vals. by intros ->. Qed.

Lemma expected_steady c s s' :
  steady s s' →
  expected_dashboard c s' = expected_dashboard c s ∧
  expected_comparison c s' = expected_comparison c s.
Proof.
  intros (E1 & E2 & _). unfold expected_dashboard, expected_comparison.
  by rewrite E1, (getFilters_controls _ _ E2), (getComparison_controls _ _ E2).
Qed.

(** The debounced action itself. *)
Lemma run_action c s :
  let s' := run_callback (action c) s in
  timer_state s' = timer_state s ∧ now (rt s') = now (rt s) ∧
  dataLoaded (js s') = dataLoaded (js s) ∧ controls (dom s') = controls (dom s) ∧
  dashboard_calls s' = dashboard_calls s ++ expected_dashboard c s ∧
  comparison_calls s' = comparison_calls s ++ expected_comparison c s.
Proof.
  destruct c; simpl.
  - split; [apply ts_applyFilters|].
    unfold applyFilters, dashboard_calls, comparison_calls, calls.
    destruct (dataLoaded (js s)) eqn:E; simpl; rewrite ?E, ?app_nil_r; [|done].
    rewrite fmap_app, !omap_app; simpl. rewrite app_nil_r.
    destruct (pendingRequest (js s)) as [p|]; [|done].
    unfold abort. by destruct (lookup_request p s).
  - split; [apply ts_loadComparison|].
    unfold loadComparison, getComparison, dashboard_calls, comparison_calls, calls.
    destruct (dataLoaded (js s)) eqn:E; simpl; rewrite ?E, ?app_nil_r; [|done].
    destruct (val ComparisonType s) as [ct|]; simpl; rewrite ?E, ?app_nil_r; [|done].
    change (comparisonParams ct (on_comparison _ (on_comparison _ s)))
      with (comparisonParams ct s).
    destruct (comparisonParams ct s) as [p|]; simpl; rewrite ?E, ?app_nil_r; [|done].
    rewrite fmap_app, !omap_app; simpl. by rewrite app_nil_r.
Qed.

(** The debounce timer goes off. *)
Lemma fire_debounce c d i s :
  wf s → debounce_timers s = [{| tid := i; due := d; cb := action c |}] →
  let s' := fire i s in
  disarmed s' ∧ now (rt s') = now (rt s) ∧
  dataLoaded (js s') = dataLoaded (js s) ∧ controls (dom s') = controls (dom s) ∧
  dashboard_calls s' = dashboard_calls s ++ expected_dashboard c s ∧
  comparison_calls s' = comparison_calls s ++ expected_comparison c s.
Proof.
  intros [Hok R] Hd. simpl. unfold fire.
  set (tD := {| tid := i; due := d; cb := action c |}) in *.
  assert (tD ∈ timers (rt s)) as HtD.
  { apply elem_of_debounce_timers. rewrite Hd. left. }
  destruct (list_find _ _) as [[k t]|] eqn:E.
  2: { apply list_find_None in E. rewrite Forall_forall in E. by destruct (E tD HtD). }
  apply list_find_Some in E as (Hk & Ht & _). apply list_elem_of_lookup_2 in Hk.
  assert (t = tD) as -> by (destruct Hok as (Hnd & _); by eapply tid_inj_on).
  change (cb tD) with (action c).
  set (s1 := clearTimeout (Some i) s).
  assert (timers_ok s1) as Hok1 by by apply timers_ok_clearTimeout.
  assert (debounce_timers s1 = []) as Hd1.
  { unfold debounce_timers, s1; simpl. apply filter_none.
    intros t [Hn Ht']%list_elem_of_filter Hdeb. apply Hn.
    assert (t ∈ debounce_timers s) as Hin by by apply list_elem_of_filter.
    rewrite Hd in Hin. by apply list_elem_of_singleton in Hin as ->. }
  destruct (run_action c s1) as (T1 & T2 & T3 & T4 & T5 & T6).
  set (s2 := run_callback (action c) s1) in *.
  pose proof (dv_drain s2) as (D1 & D2 & D3 & D4 & D5 & D6 & D7)%dview_inv.
  split; [split|].
  - apply wf_drain. by apply (timers_ok_frame s1).
  - rewrite D6. unfold timer_state in T1. injection T1 as T1 _ _.
    unfold debounce_timers. rewrite T1. exact Hd1.
  - rewrite D7, D1, D2, D3, D4, T2, T3, T4, T5, T6. done.
Qed.

(** The millisecond at which the debounce timer is due. *)
Lemma tick_due c d s :
  armed c d s → (now (rt s) + 1 = d)%N →
  let s' := tick s in
  disarmed s' ∧ now (rt s') = d ∧
  dataLoaded (js s') = dataLoaded (js s) ∧ controls (dom s') = controls (dom s) ∧
  dashboard_calls s' = dashboard_calls s ++ expected_dashboard c s ∧
  comparison_calls s' = comparison_calls s ++ expected_comparison c s.
Proof.
  intros [[Hok R] (i & Hi & Hd)] Hnow. simpl. unfold tick.
  set (s0 := on_rt (λ r, set_now (now r + 1)%N r) s).
  set (tD := {| tid := i; due := d; cb := action c |}) in *.
  assert (wf s0) as Hwf0 by (split; [by apply (timers_ok_frame s)|done]).
  assert (tD ∈ timers (rt s)) as HtD.
  { apply elem_of_debounce_timers. rewrite Hd. left. }
  set (l := tid <$> filter (λ t, (due t ≤ now (rt s0))%N) (timers (rt s0))).
  assert (NoDup l) as Hnd.
  { destruct Hok as (Hnd & _). eapply sublist_NoDup; [exact Hnd|].
    apply fmap_sublist, sublist_filter. }
  assert (i ∈ l) as Hil.
  { apply (list_elem_of_fmap_2' tid _ tD); [|done].
    apply list_elem_of_filter. split; [|done]. simpl. lia. }
  apply list_elem_of_split in Hil as (l1 & l2 & El). rewrite El in *.
  apply NoDup_app in Hnd as (_ & Hl1 & [Hl2 _]%NoDup_cons).
  rewrite foldl_app. simpl.
  destruct (fire_all_other l1 s0 Hwf0) as [Hwf1 Hv1].
  { intros j t Hj Ht Ej. change (debounce_timers s0) with (debounce_timers s) in Ht.
    rewrite Hd in Ht. apply list_elem_of_singleton in Ht as ->.
    apply (Hl1 j Hj). simpl in Ej. subst j. left. }
  set (s1 := foldl (λ s i, fire i s) s0 l1) in *.
  apply dview_inv in Hv1 as (A1 & A2 & A3 & A4 & A5 & A6 & A7).
  destruct (fire_debounce c d i s1 Hwf1) as ([Hwf2 Hd2] & B1 & B2 & B3 & B4 & B5).
  { by rewrite A6. }
  set (s2 := fire i s1) in *.
  destruct (fire_all_other l2 s2 Hwf2) as [Hwf3 Hv3].
  { intros j t _ Ht. rewrite Hd2 in Ht. by apply elem_of_nil in Ht. }
  apply dview_inv in Hv3 as (C1 & C2 & C3 & C4 & C5 & C6 & C7).
  destruct (expected_steady c s s1) as [E1 E2]; [done|].
  split; [split; [done|congruence]|].
  rewrite C7, C1, C2, C3, C4, B1, B2, B3, B4, B5, A7, A1, A2, A3, A4, E1, E2.
  done.
Qed.

Lemma tick_disarmed s :
  disarmed s → disarmed (tick s) ∧ steady s (tick s).
Proof.
  intros [[Hok R] Hd]. unfold tick.
  set (s0 := on_rt (λ r, set_now (now r + 1)%N r) s).
  destruct (fire_all_other
    (tid <$> filter (λ t, (due t ≤ now (rt s0))%N) (timers (rt s0))) s0) as [H1 H2].
  - split; [by apply (timers_ok_frame s)|done].
  - intros j t _ Ht. change (debounce_timers s0) with (debounce_timers s) in Ht.
    rewrite Hd in Ht. by apply elem_of_nil in Ht.
  - apply dview_inv in H2 as (?&?&?&?&?&Hd'&?).
    change (debounce_timers s0) with (debounce_timers s) in Hd'.
    split; [split|]; [done|congruence|done].
Qed.

Lemma elapse_disarmed n s :
  disarmed s → disarmed (elapse n s) ∧ steady s (elapse n s).
Proof.
  revert s. induction n as [|n IH]; intros s H; simpl; [done|].
  destruct (tick_disarmed s H) as [H1 H2]. destruct (IH _ H1) as [H3 H4].
  split; [done|]. by eapply steady_trans.
Qed.

Lemma elapse_idle c d n s :
  armed c d s → (now (rt s) + N.of_nat n < d)%N →
  armed c d (elapse n s) ∧ steady s (elapse n s) ∧
  now (rt (elapse n s)) = (now (rt s) + N.of_nat n)%N.
Proof.
  revert s. induction n as [|n IH]; intros s H Hlt; simpl.
  { split_and!; [done..|lia]. }
  destruct (tick_idle c d s H) as [H1 H2]; [lia|].
  apply dview_inv in H2 as (V1 & V2 & V3 & V4 & _ & _ & Hn). simpl in Hn.
  destruct (IH _ H1) as (I1 & I2 & I3); [lia|].
  split_and!; [done| |lia]. eapply steady_trans; [|exact I2]. done.
Qed.

Lemma elapse_add a b s : elapse (a + b) s = elapse b (elapse a s).
Proof. revert s. induction a as [|a IH]; intros s; simpl; [done|]. apply IH. Qed.

(** The quiet period after the last notification. *)
Lemma quiet_period c q s :
  armed c (now (rt s) + 300) s → 300 ≤ q →
  let s' := elapse q s in
  wf s' ∧
  dashboard_calls s' = dashboard_calls s ++ expected_dashboard c s ∧
  comparison_calls s' = comparison_calls s ++ expected_comparison c s.
Proof.
  intros Ha Hq. simpl.
  replace q with (299 + (1 + (q - 300))) by lia. rewrite !elapse_add.
  destruct (elapse_idle c _ 299 s Ha) as (H1 & H2 & H3); [lia|].
  set (s1 := elapse 299 s) in *.
  destruct (tick_due c _ s1 H1) as (H4 & H5 & H6 & H7 & H8 & H9); [lia|].
  change (elapse 1 s1) with (tick s1).
  destruct (elapse_disarmed (q - 300) _ H4) as ([H10 _] & _ & _ & H11 & H12).
  destruct (expected_steady c s s1 H2) as [E1 E2].
  destruct H2 as (_ & _ & F1 & F2).
  split; [done|]. rewrite H11, H12, H8, H9, E1, E2, F1, F2. done.
Qed.

Lemma step_elapse_idle c g s :
  armed c (now (rt s) + 300) s → g < 300 →
  wf (step s (EvElapse g)) ∧ steady s (step s (EvElapse g)).
Proof.
  intros Ha Hg. unfold step. cbn [handle].
  destruct (elapse_idle c _ g s Ha) as ([Hwf _] & H2 & _); [lia|].
  rewrite drain_idle by apply Hwf. done.
Qed.

Lemma burst_armed e rest c s :
  wf s → is_Some (notifies e) → within_quiet_period rest →
  notifies (last_notification e rest) = Some c →
  let s1 := run s (e :: burst rest) in
  armed c (now (rt s1) + 300) s1 ∧
  dashboard_calls s1 = dashboard_calls s ∧ comparison_calls s1 = comparison_calls s.
Proof.
  revert e s. induction rest as [|[g e'] rest IH]; intros e s Hwf [c0 He] Hrest Hc.
  - simpl in *. destruct (notify_armed e c s Hwf Hc) as (Ha & _ & Q2 & Q3 & Q4).
    rewrite Q4. done.
  - apply Forall_cons in Hrest as [[Hg He'] Hrest]. simpl in *.
    destruct (notify_armed e c0 s Hwf He) as (Ha & _ & Q2 & Q3 & Q4).
    rewrite <- Q4 in Ha.
    destruct (step_elapse_idle c0 g _ Ha Hg) as (Hwf' & _ & _ & S3 & S4).
    destruct (IH e' _ Hwf' He' Hrest Hc) as (I1 & I2 & I3).
    split; [done|]. split; congruence.
Qed.
End DebounceFrames.

(* ================================================================== *)
(** ** Formatter: magnitudes and sign *)
(* ================================================================== *)

Section FormatterFacts.
Variable numberToString : float → string.

Lemma SFcompare_refl f : f ≠ S754_nan → SFcompare f f = Some Eq.
Proof.
  destruct f as [b|b| |b m e]; intros H; try congruence; simpl.
  - reflexivity.
  - by destruct b.
  - rewrite Z.compare_refl, Pos.compare_cont_refl. by destruct b.
Qed.

Lemma ltb_not_nan_l x y : (x <? y)%float = true → (x =? x)%float = true.
Proof.
  rewrite ltb_spec, FloatAxioms.eqb_spec. unfold SFltb, SFeqb.
  intros H. rewrite SFcompare_refl; [done|].
  intros E. by rewrite E in H.
Qed.

Lemma ltb_not_nan_r x y : (x <? y)%float = true → (y =? y)%float = true.
Proof.
  rewrite ltb_spec, FloatAxioms.eqb_spec. unfold SFltb, SFeqb.
  intros H. rewrite SFcompare_refl; [done|].
  intros E. rewrite E in H. by destruct (Prim2SF x).
Qed.

Lemma negative_nonzero x : (x <? 0)%float = true → (x =? 0)%float = false.
Proof.
  rewrite ltb_spec, FloatAxioms.eqb_spec. unfold SFltb, SFeqb.
  by destruct (SFcompare _ _) as [[]|].
Qed.

Lemma positive_nonzero x :
  (0 <? x)%float = true → (x =? 0)%float = false ∧ (x <? 0)%float = false.
Proof.
  rewrite !ltb_spec, FloatAxioms.eqb_spec. unfold SFltb, SFeqb.
  change (Prim2SF 0) with (S754_zero false).
  destruct (Prim2SF x) as [b|b| |b m e]; simpl; try done; by destruct b.
Qed.

Lemma zero_is_zero x : (x =? 0)%float = true → ∃ b, Prim2SF x = S754_zero b.
Proof.
  rewrite FloatAxioms.eqb_spec. unfold SFeqb.
  change (Prim2SF 0) with (S754_zero false).
  destruct (Prim2SF x) as [b|b| |b m e]; simpl; try done; eauto; by destruct b.
Qed.

Lemma formatCurrency_negative v :
  (v <? 0)%float = true →
  ∃ body, formatCurrency numberToString v = "-Rs." +:+ body.
Proof.
  intros H. unfold formatCurrency, falsy, is_nan.
  rewrite (negative_nonzero _ H), (ltb_not_nan_l _ _ H), H. simpl.
  repeat case_match; eexists; reflexivity.
Qed.

Lemma formatCurrency_positive v :
  (0 <? v)%float = true →
  ∃ body, formatCurrency numberToString v = "+Rs." +:+ body.
Proof.
  intros H. unfold formatCurrency, falsy, is_nan.
  destruct (positive_nonzero _ H) as [-> ->].
  rewrite (ltb_not_nan_r _ _ H), H. simpl.
  repeat case_match; eexists; reflexivity.
Qed.

Lemma formatCurrency_zero v :
  (v =? 0)%float = true → formatCurrency numberToString v = "Rs.0".
Proof.
  intros H. unfold formatCurrency, falsy. rewrite H. simpl.
  destruct (zero_is_zero _ H) as [b Hb].
  rewrite !ltb_spec, !leb_spec, abs_spec, Hb. simpl.
  unfold toFixed. rewrite abs_spec, Hb. reflexivity.
Qed.

End FormatterFacts.



(* ================================================================== *)
(** ** Bulk load: retries *)
(* ================================================================== *)

Section BulkLoad.
Implicit Types (s : State).

(** The two ways out of the [catch] of [loadData]. *)
Lemma loadData_catch_retries f n e s :
  (n <? 3)%nat && bool_decide (name e = "AbortError") = true →
  let s' := loadData_catch f n e s in
  timers (rt s') =
    timers (rt s) ++ [{| tid := nextTimer (rt s); due := (now (rt s) + 2000)%N;
                         cb := CbRetryLoad f n |}] ∧
  calls s' = calls s ∧ toasts (shell (dom s')) = toasts (shell (dom s)).
Proof. intros H. unfold loadData_catch. by rewrite H. Qed.

Lemma loadData_catch_gives_up f n e s :
  (n <? 3)%nat && bool_decide (name e = "AbortError") = false →
  let s' := loadData_catch f n e s in
  timers (rt s') = timers (rt s) ∧ calls s' = calls s ∧ welcome_shown s' ∧
  toasts (shell (dom s')) =
    toasts (shell (dom s))
      ++ [("Load failed: " +:+ message e +:+ ". Click Refresh to retry.", "error")].
Proof.
  intros H. unfold loadData_catch. rewrite H. split_and!; [done..| |done].
  unfold welcome_shown; simpl. by intros [? _]%list_elem_of_filter.
Qed.

Lemma four_timeouts_state :
  calls four_timeouts = [ApiLoad false; ApiLoad false; ApiLoad false; ApiLoad false] ∧
  now (rt four_timeouts) = 1206000%N ∧
  timers (rt four_timeouts) = [] ∧ inflight (rt four_timeouts) = [] ∧
  rejected (rt four_timeouts) = [] ∧
  classes (shell (dom four_timeouts)) = [("#loadingOverlay", "hidden")] ∧
  toasts (shell (dom four_timeouts)) =
    [("Load failed: The user aborted a request.. Click Refresh to retry.",
      "error")].
Proof. vm_compute. repeat split. Qed.

Lemma wf_no_timers s : timers (rt s) = [] → rejected (rt s) = [] → wf s.
Proof.
  intros Ht Hr. split; [|done]. unfold timers_ok. rewrite Ht.
  split_and!; [apply NoDup_nil_2|intros t []%elem_of_nil..].
Qed.

(** With no timer set, time passes and nothing happens. *)
Lemma tick_no_timers s :
  timers (rt s) = [] → timers (rt (tick s)) = [] ∧ calls (tick s) = calls s.
Proof. intros H. unfold tick; simpl. by rewrite H. Qed.

Lemma elapse_no_timers k s :
  timers (rt s) = [] → calls (elapse k s) = calls s.
Proof.
  revert s. induction k as [|k IH]; intros s H; simpl; [done|].
  destruct (tick_no_timers s H) as [H1 H2]. by rewrite IH.
Qed.

Lemma retry_rule f n e s :
  let s' := loadData_catch f n e s in
  if (n <? 3)%nat && bool_decide (name e = "AbortError") then
    timers (rt s') =
      timers (rt s) ++ [{| tid := nextTimer (rt s);
                           due := (now (rt s) + 2000)%N;
                           cb := CbRetryLoad f n |}] ∧
    calls s' = calls s
  else
    timers (rt s') = timers (rt s) ∧ calls s' = calls s ∧ welcome_shown s' ∧
    last (toasts (shell (dom s'))) =
      Some ("Load failed: " +:+ message e +:+ ". Click Refresh to retry.",
            "error").
Proof.
  simpl. case_match eqn:E.
  - by destruct (loadData_catch_retries f n e s E) as (? & ? & _).
  - destruct (loadData_catch_gives_up f n e s E) as (? & ? & ? & ->).
    split_and!; [done..|]. apply last_snoc.
Qed.

Lemma retry_callback f n s :
  let s' := run_callback (CbRetryLoad f n) s in
  calls s' = calls s ++ [ApiLoad f] ∧
  inflight (rt s') =
    inflight (rt s) ++ [{| rid := nextRequest (rt s);
                           waiting := PLoad f (n + 1) (nextTimer (rt s)) |}].
Proof.
  simpl. unfold loadData_retry, loadData, calls.
  destruct f; simpl; by rewrite fmap_app.
Qed.

Lemma failure_never_retried f n t r s s' :
  failure r → loadData_reply f n t r s = Some s' →
  welcome_shown s' ∧ ∀ x, x ∈ timers (rt s') → x ∈ timers (rt s).
Proof.
  intros Hr E. unfold loadData_reply in E.
  destruct r as [m|m|err| | | | | | |]; try done; simplify_eq.
  - destruct (loadData_catch_gives_up f n (TypeError m) s) as (-> & _ & ? & _).
    { by rewrite andb_false_r. }
    done.
  - destruct (loadData_catch_gives_up f n (SyntaxError m)
                (clearTimeout (Some t) s)) as (-> & _ & ? & _).
    { by rewrite andb_false_r. }
    split; [done|]. simpl. by intros x [_ ?]%list_elem_of_filter.
  - match goal with
    | |- context [loadData_catch f n ?e ?s0] =>
        destruct (loadData_catch_gives_up f n e s0) as (-> & _ & ? & _)
    end.
    { by rewrite andb_false_r. }
    split; [done|]. simpl. by intros x [_ ?]%list_elem_of_filter.
Qed.

(** C5.  Bounded retry on bulk-load timeout.  The [catch] of [loadData]
    schedules a retry exactly when fewer than 3 retries have occurred and
    the failure is the abort raised by the 300 s timeout; the retry is a
    timer due 2 s later whose callback calls [loadData] with the count
    incremented.  A failure reply (no connection, no JSON, refusal) never
    leaves a new timer behind.  And a load that times out 4 times in a row
    has sent 4 requests, that is made 3 retries, 1,206 s after the start;
    it ends on the welcome screen with the failure toast, nothing set and
    nothing in flight, and sends no request however long one waits. *)
Theorem bounded_retry_on_timeout :
  (∀ f n e s,
     let s' := loadData_catch f n e s in
     if (n <? 3)%nat && bool_decide (name e = "AbortError") then
       timers (rt s') =
         timers (rt s) ++ [{| tid := nextTimer (rt s);
                              due := (now (rt s) + 2000)%N;
                              cb := CbRetryLoad f n |}] ∧
       calls s' = calls s
     else
       timers (rt s') = timers (rt s) ∧ calls s' = calls s ∧ welcome_shown s' ∧
       last (toasts (shell (dom s'))) =
         Some ("Load failed: " +:+ message e +:+ ". Click Refresh to retry.",
               "error")) ∧
  (∀ f n s,
     let s' := run_callback (CbRetryLoad f n) s in
     calls s' = calls s ++ [ApiLoad f] ∧
     inflight (rt s') =
       inflight (rt s) ++ [{| rid := nextRequest (rt s);
                              waiting := PLoad f (n + 1) (nextTimer (rt s)) |}]) ∧
  (∀ f n t r s s',
     failure r → loadData_reply f n t r s = Some s' →
     welcome_shown s' ∧ ∀ x, x ∈ timers (rt s') → x ∈ timers (rt s)) ∧
  calls four_timeouts = [ApiLoad false; ApiLoad false; ApiLoad false; ApiLoad false] ∧
  now (rt four_timeouts) = 1206000%N ∧
  timers (rt four_timeouts) = [] ∧ inflight (rt four_timeouts) = [] ∧
  welcome_shown four_timeouts ∧
  toasts (shell (dom four_timeouts)) =
    [("Load failed: The user aborted a request.. Click Refresh to retry.",
      "error")] ∧
  (∀ k, calls (step four_timeouts (EvElapse k)) = calls four_timeouts).
Proof.
  split; [exact retry_rule|]. split; [exact retry_callback|].
  split; [exact failure_never_retried|].
  destruct four_timeouts_state as (Hc & Hn & Ht & Hi & Hr & Hw & Ho).
  split; [exact Hc|]. split; [exact Hn|]. split; [exact Ht|].
  split; [exact Hi|]. split.
  { unfold welcome_shown. rewrite Hw.
    intros H%list_elem_of_singleton. inversion H. }
  split; [exact Ho|].
  intros k. unfold step. cbn [handle].
  rewrite drain_idle.
  - apply elapse_no_timers, Ht.
  - apply wf_elapse, wf_no_timers; [exact Ht|exact Hr].
Qed.
End BulkLoad.

(** The rule at the first attempt of a load started by the page, and a
    refusal received by the first attempt. *)
Lemma bounded_retry_on_timeout_witness :
  failure (Refused None) ∧
  loadData_reply false 0 0 (Refused None) (step (init blank) EvReady)
    = Some (loadData_catch false 0 (Error "Unknown error loading data")
              (clearTimeout (Some 0) (step (init blank) EvReady))) ∧
  welcome_shown (loadData_catch false 0 (Error "Unknown error loading data")
                   (clearTimeout (Some 0) (step (init blank) EvReady))).
Proof.
  split; [exact I|]. split; [reflexivity|].
  pose proof bounded_retry_on_timeout as (_ & _ & H & _).
  by destruct (H false 0 0 (Refused None) (step (init blank) EvReady) _ I eq_refl).
Defined.

(* ================================================================== *)
(** ** Gating on the loaded dataset *)
(* ================================================================== *)


(* ================================================================== *)
(** ** One request in flight, last edit wins *)
(* ================================================================== *)

(** C3.  The code at the failing inputs.  Filter-apply: the second of
    three immediate applications aborts the first, whose [finally] then
    clears [pendingRequest] although request 3 is in flight; the third
    application therefore aborts nothing, and requests 3 and 4 are live
    together.  Comparison-load: nothing is ever aborted, and two loads in a
    row are live together. *)
Theorem two_requests_live_together :
  (live FilterApply two_applies = [3] ∧ pendingRequest (js two_applies) = None) ∧
  (live FilterApply three_applies = [3; 4] ∧
   pendingRequest (js three_applies) = Some 4) ∧
  live ComparisonLoad two_comparisons = [2; 3].
Proof. vm_compute. repeat split. Qed.

(** C1.  The code at the failing inputs.  Filter-apply: of the three
    applications, the one for ["fy"] (request 3) is superseded by the one for
    ["quarter"] (request 4) before it resolves; when the reply to 4 arrives
    first and the reply to 3 after it, the KPIs, the cache and the status
    bar end up with the data of request 3.  Comparison-load: the reply to the
    older request 2, arriving last, is what the view shows. *)
Theorem stale_reply_overwrites_newer :
  (period_type <$> dashboard_calls three_applies =
     [None; Some "year"; Some "fy"; Some "quarter"] ∧
   kpiCards (singleView (dom stale_dashboard)) = Some (sample 30) ∧
   cachedChartData (js stale_dashboard) !! "monthly" = Some (sample 31) ∧
   period_type <$> statusBar (singleView (dom stale_dashboard)) = Some (Some "fy")) ∧
  (comparison_type <$> comparison_calls two_comparisons = ["year"; "fy"] ∧
   comparisonKpis (comparisonView (dom stale_comparison)) = Some (sample 60) ∧
   comparisonTableBody (comparisonView (dom stale_comparison)) = Some (sample 60)).
Proof. vm_compute. repeat split. Qed.

(* ================================================================== *)
(** ** Debounce coalescing *)
(* ================================================================== *)

(** C2 (as amended).  One timer serves both classes.  Take any reachable
    state and any burst of change notifications, of either class, each less
    than 300 ms after the one before, followed by a quiet period of at least
    300 ms.  Then only the action of the last notification has run, once, on
    the controls as they were at that notification: if it is a filter
    notification, exactly one [/api/dashboard] request went out (none while
    no dataset is loaded) and no comparison request; if it is a comparison
    notification, no dashboard request went out and the comparison request,
    if the selection yields one, went out once.  The actions scheduled by the
    earlier notifications, of the same class or of the other, never ran. *)
Theorem debounce_coalescing s e rest q c :
  reachable s →
  is_Some (notifies e) → within_quiet_period rest →
  notifies (last_notification e rest) = Some c →
  300 ≤ q →
  let s1 := run s (e :: burst rest) in
  let s2 := step s1 (EvElapse q) in
  dashboard_calls s2 =
    dashboard_calls s ++
      match c with
      | FilterApply => if dataLoaded (js s) then [getFilters s1] else []
      | ComparisonLoad => []
      end ∧
  comparison_calls s2 =
    comparison_calls s ++
      match c with
      | FilterApply => []
      | ComparisonLoad =>
          if dataLoaded (js s) then option_list (getComparison s1) else []
      end.
Proof.
  intros Hs He Hrest Hc Hq. apply reachable_wf in Hs.
  assert (dataLoaded (js (run s (e :: burst rest))) = dataLoaded (js s)) as Hdl.
  { clear Hc Hq c. revert e s Hs He Hrest.
    induction rest as [|[g e'] rest IH]; intros e s Hwf [c0 He] Hrest.
    - simpl. by destruct (notify_armed e c0 s Hwf He) as (_ & ? & _).
    - apply Forall_cons in Hrest as [[Hg He'] Hrest]. simpl in *.
      destruct (notify_armed e c0 s Hwf He) as (Ha & Q1 & _ & _ & Q4).
      rewrite <- Q4 in Ha.
      destruct (step_elapse_idle c0 g _ Ha Hg) as (Hwf' & S1 & _).
      rewrite (IH e' _ Hwf' He' Hrest). congruence. }
  destruct (burst_armed e rest c s Hs He Hrest Hc) as (Ha & D1 & D2).
  set (s1 := run s (e :: burst rest)) in *. cbv zeta.
  change (step s1 (EvElapse q)) with (drain (elapse q s1)).
  destruct (quiet_period c q _ Ha Hq) as ([_ Hr] & Q1 & Q2).
  rewrite drain_idle by exact Hr.
  rewrite Q1, Q2, D1, D2. unfold expected_dashboard, expected_comparison.
  rewrite Hdl. by destruct c.
Qed.

(** C2 as stated fails across classes: with a dataset loaded, a change of
    the state filter followed 100 ms later by a change of a comparison filter
    leaves, after the quiet period, no dashboard request sent and no timer
    set: the comparison notification cancelled the pending filter-apply. *)
Lemma comparison_notification_cancels_filter_apply :
  dataLoaded (js session) = true ∧
  notifies (EvChangeMulti States ["KL"]) = Some FilterApply ∧
  notifies (EvChangeMulti CompStates ["KL"]) = Some ComparisonLoad ∧
  dashboard_calls crossed_notifications = dashboard_calls session ∧
  timers (rt crossed_notifications) = [].
Proof. vm_compute. repeat split. Qed.

(** A change of the state filter, a change of the brand filter 100 ms
    later, then 300 ms of quiet, in the session of the examples. *)
Lemma debounce_coalescing_witness :
  reachable session ∧
  is_Some (notifies (EvChangeMulti States ["KL"])) ∧
  within_quiet_period [(100, EvChangeMulti Brands ["Acme"])] ∧
  notifies (last_notification (EvChangeMulti States ["KL"])
                              [(100, EvChangeMulti Brands ["Acme"])])
    = Some FilterApply ∧
  300 ≤ 300 ∧
  (let s1 := run session (EvChangeMulti States ["KL"]
                            :: burst [(100, EvChangeMulti Brands ["Acme"])]) in
   let s2 := step s1 (EvElapse 300) in
   dashboard_calls s2 =
     dashboard_calls session ++
       match FilterApply with
       | FilterApply => if dataLoaded (js session) then [getFilters s1] else []
       | ComparisonLoad => []
       end ∧
   comparison_calls s2 =
     comparison_calls session ++
       match FilterApply with
       | FilterApply => []
       | ComparisonLoad =>
           if dataLoaded (js session) then option_list (getComparison s1) else []
       end).
Proof.
  assert (reachable session) as H1.
  { unfold session. eexists _, _. reflexivity. }
  assert (is_Some (notifies (EvChangeMulti States ["KL"]))) as H2.
  { eexists. reflexivity. }
  assert (within_quiet_period [(100, EvChangeMulti Brands ["Acme"])]) as H3.
  { apply Forall_cons. split; [|apply Forall_nil_2].
    split; [simpl; lia|]. eexists. reflexivity. }
  split; [exact H1|]. split; [exact H2|]. split; [exact H3|].
  split; [reflexivity|]. split; [lia|].
  exact (debounce_coalescing session _ _ 300 FilterApply H1 H2 H3 eq_refl
           (le_n 300)).
Defined.

(* ================================================================== *)
(** ** The chart cache *)
(* ================================================================== *)

Section Cache.
Implicit Types (s : State).

(** An event whose handler aborts nothing is its handler. *)
Lemma step_handle e s :
  wf s → rejected (rt (handle e s)) = rejected (rt s) → step s e = handle e s.
Proof. intros [_ R] H. unfold step. apply drain_idle. by rewrite H. Qed.

Lemma handle_reply c q r s s' :
  lookup_request c s = Some q → settle q r (forget_request c s) = Some s' →
  handle (EvReply c r) s = s'.
Proof. intros Hq Hs. cbn [handle]. by rewrite Hq, Hs. Qed.

Lemma dashboard_reply_cached c q f aw k i charts t s :
  wf s → lookup_request c s = Some q → waiting q = PDashboard f aw →
  cachedChartData (js (step s (EvReply c (Dashboard k i charts t)))) = charts.
Proof.
  intros Hwf Hq Hw.
  assert (∃ s', settle q (Dashboard k i charts t) (forget_request c s) = Some s' ∧
                rejected (rt s') = rejected (rt s) ∧
                cachedChartData (js s') = charts) as (s' & Hs & Hr & Hc).
  { unfold settle. rewrite Hw. unfold applyFilters_reply. eexists. split; [done|].
    unfold applyFilters_finally, resume. destruct aw, i; split; frame. }
  pose proof (handle_reply _ _ _ _ _ Hq Hs) as Hh.
  rewrite step_handle by (done || by rewrite Hh). by rewrite Hh.
Qed.

Lemma showChart_cached chartType d s :
  cachedChartData (js s) !! chartType = Some d →
  let s' := showChart chartType s in
  calls s' = calls s ∧ inflight (rt s') = inflight (rt s) ∧
  rejected (rt s') = rejected (rt s) ∧
  cachedChartData (js s') = cachedChartData (js s) ∧
  activeChart (js s') = chartType ∧
  if bool_decide (chartType = "map") then
    mapLayer (singleView (dom s')) = Some (if has d "districts" then Some d else None)
  else
    chartDisplay (singleView (dom s')) =
      if drawable chartType d then Plot chartType d else Html "No data available".
Proof.
  intros Hd. simpl. unfold showChart.
  case_bool_decide as Hm; simpl.
  - subst chartType. rewrite Hd. done.
  - rewrite Hd. split_and!; try done.
    unfold renderChart, drawable; simpl. by repeat case_match.
Qed.

(** C4.  Cache coherence on tab switch.  In every reachable state, a
    successful reply to a filter-apply request in flight makes the chart
    cache that reply's bundle, whole.  And in every reachable state,
    showing a chart type whose series is in the cache sends no request,
    leaves the cache as it is, and hands that series to the renderer: the
    map layer is drawn from it, or the chart is plotted from it when the
    series has the shape its chart type draws. *)
Theorem cache_coherent_on_tab_switch :
  (∀ s c q f aw k i charts t,
     reachable s → lookup_request c s = Some q → waiting q = PDashboard f aw →
     cachedChartData (js (step s (EvReply c (Dashboard k i charts t)))) = charts) ∧
  (∀ s chartType d,
     reachable s → cachedChartData (js s) !! chartType = Some d →
     let s' := step s (EvShowChart chartType) in
     calls s' = calls s ∧ inflight (rt s') = inflight (rt s) ∧
     cachedChartData (js s') = cachedChartData (js s) ∧
     (chartType = "map" → has d "districts" = true →
      mapLayer (singleView (dom s')) = Some (Some d)) ∧
     (chartType ≠ "map" → drawable chartType d = true →
      chartDisplay (singleView (dom s')) = Plot chartType d)).
Proof.
  split.
  - intros s c q f aw k i charts t Hs. apply dashboard_reply_cached.
    by apply reachable_wf.
  - intros s chartType d Hs%reachable_wf Hd.
    destruct (showChart_cached chartType d s Hd) as (H1 & H2 & H3 & H4 & _ & H6).
    cbv zeta. rewrite (step_handle (EvShowChart chartType) _ Hs H3). cbn [handle].
    split_and!; [done..| |].
    + intros -> Hx. rewrite bool_decide_eq_true_2 in H6 by done. by rewrite H6, Hx.
    + intros Hn Hx. rewrite bool_decide_eq_false_2 in H6 by done. by rewrite H6, Hx.
Qed.
End Cache.

Section Reachability.
Lemma reachable_init page : reachable (init page).
Proof. by exists page, []. Qed.

Lemma reachable_step s e : reachable s → reachable (step s e).
Proof.
  intros (page & es & ->). exists page, (es ++ [e]).
  unfold run. by rewrite foldl_app.
Qed.

Lemma reachable_run s es : reachable s → reachable (run s es).
Proof.
  revert s. induction es as [|e es IH]; intros s H; [done|].
  apply IH. by apply reachable_step.
Qed.

Lemma reachable_session : reachable session.
Proof. apply reachable_run, reachable_init. Qed.
End Reachability.

(** A dashboard reply to the filter application in flight in [applying],
    and the monthly tab shown in [session]. *)
Lemma cache_coherent_on_tab_switch_witness :
  (reachable applying ∧
   lookup_request 2 applying
     = Some {| rid := 2; waiting := PDashboard (getFilters applying) None |} ∧
   cachedChartData (js (step applying (EvReply 2 (sample_dashboard 40))))
     = {[ "monthly" := sample 41 ]}) ∧
  (reachable session ∧
   cachedChartData (js session) !! "monthly" = Some (sample 11) ∧
   "monthly" ≠ "map" ∧ drawable "monthly" (sample 11) = true ∧
   chartDisplay (singleView (dom (step session (EvShowChart "monthly"))))
     = Plot "monthly" (sample 11)).
Proof.
  pose proof cache_coherent_on_tab_switch as [H1 H2].
  assert (reachable applying) as Ha by apply reachable_step, reachable_session.
  assert (lookup_request 2 applying
          = Some {| rid := 2; waiting := PDashboard (getFilters applying) None |})
    as Hq by (vm_compute; reflexivity).
  assert (cachedChartData (js session) !! "monthly" = Some (sample 11))
    as Hc by (vm_compute; reflexivity).
  split.
  - split; [exact Ha|]. split; [exact Hq|].
    exact (H1 applying 2 _ _ None _ None _ _ Ha Hq eq_refl).
  - split; [exact reachable_session|]. split; [exact Hc|].
    split; [discriminate|]. split; [reflexivity|].
    exact (proj2 (proj2 (proj2 (proj2
             (H2 session "monthly" (sample 11) reachable_session Hc))))
             ltac:(discriminate) eq_refl).
Defined.

(* ================================================================== *)
(** ** The map slot *)
(* ================================================================== *)

Section MapSlot.
Implicit Types (s : State).

Lemma showChart_map_miss s :
  cachedChartData (js s) !! "map" = None →
  let s' := showChart "map" s in
  calls s' = calls s ++ [ApiMap (getFilters s)] ∧
  live_requests s' = live_requests s ++ [nextRequest (rt s)] ∧
  rejected (rt s') = rejected (rt s) ∧
  cachedChartData (js s') = cachedChartData (js s).
Proof.
  intros H. simpl. unfold showChart. simpl. rewrite H.
  unfold loadMapData, calls, live_requests; simpl. by rewrite !fmap_app.
Qed.

Lemma map_reply c q data s :
  wf s → lookup_request c s = Some q → waiting q = PMap →
  let s' := step s (EvReply c (MapData data)) in
  cachedChartData (js s') = cachedChartData (js s) ∧
  ∀ d, data = Some d →
       mapLayer (singleView (dom s')) =
         Some (if has d "districts" then Some d else None).
Proof.
  intros Hwf Hq Hw.
  assert (∃ s', settle q (MapData data) (forget_request c s) = Some s' ∧
                rejected (rt s') = rejected (rt s) ∧
                cachedChartData (js s') = cachedChartData (js s) ∧
                ∀ d, data = Some d →
                     mapLayer (singleView (dom s')) =
                       Some (if has d "districts" then Some d else None))
    as (s' & Hs & Hr & Hc & Hm).
  { unfold settle. rewrite Hw. unfold loadMapData_reply.
    destruct data as [d|]; eexists; (split; [done|]); split_and!; try done.
    by intros ? [= ->]. }
  pose proof (handle_reply _ _ _ _ _ Hq Hs) as Hh. cbv zeta.
  rewrite step_handle by (done || by rewrite Hh). by rewrite Hh.
Qed.

(** C8 (as amended).  In every reachable state, switching to the map
    while the cache has no map series sends one [/api/map] request with
    the current filters and leaves the cache as it is; and the reply to a
    map request in flight is drawn on the map and not stored: the cache,
    its map slot like every other entry, is what it was. *)
Theorem map_fetched_on_demand_not_cached :
  (∀ s, reachable s → cachedChartData (js s) !! "map" = None →
        let s' := step s (EvShowChart "map") in
        calls s' = calls s ++ [ApiMap (getFilters s)] ∧
        live_requests s' = live_requests s ++ [nextRequest (rt s)] ∧
        cachedChartData (js s') = cachedChartData (js s)) ∧
  (∀ s c q data,
     reachable s → lookup_request c s = Some q → waiting q = PMap →
     let s' := step s (EvReply c (MapData data)) in
     cachedChartData (js s') = cachedChartData (js s) ∧
     ∀ d, data = Some d →
          mapLayer (singleView (dom s')) =
            Some (if has d "districts" then Some d else None)).
Proof.
  split.
  - intros s Hs%reachable_wf Hm.
    destruct (showChart_map_miss s Hm) as (H1 & H2 & H3 & H4).
    cbv zeta. rewrite (step_handle (EvShowChart "map") _ Hs H3). done.
  - intros s c q data Hs%reachable_wf. by apply map_reply.
Qed.
End MapSlot.

(** The map tab opened in [session], and the reply to its request. *)
Lemma map_fetched_on_demand_not_cached_witness :
  (reachable session ∧ cachedChartData (js session) !! "map" = None ∧
   calls (step session (EvShowChart "map"))
     = calls session ++ [ApiMap (getFilters session)]) ∧
  (reachable map_opened ∧
   lookup_request 2 map_opened = Some {| rid := 2; waiting := PMap |} ∧
   cachedChartData (js (step map_opened (EvReply 2 (MapData (Some (sample 70))))))
     = cachedChartData (js map_opened)).
Proof.
  pose proof map_fetched_on_demand_not_cached as [H1 H2].
  assert (cachedChartData (js session) !! "map" = None)
    as Hc by (vm_compute; reflexivity).
  assert (reachable map_opened) as Hm by apply reachable_step, reachable_session.
  assert (lookup_request 2 map_opened = Some {| rid := 2; waiting := PMap |})
    as Hq by (vm_compute; reflexivity).
  split.
  - split; [exact reachable_session|]. split; [exact Hc|].
    exact (proj1 (H1 session reachable_session Hc)).
  - split; [exact Hm|]. split; [exact Hq|].
    exact (proj1 (H2 map_opened 2 _ (Some (sample 70)) Hm Hq eq_refl)).
Defined.

(** C8 as stated fails: once the map data fetched on demand have arrived
    and been drawn, the cache still has no map series, and opening the map
    tab again fetches again. *)
Lemma map_reply_not_merged_into_cache :
  cachedChartData (js session) !! "map" = None ∧
  calls map_viewed = calls session ++ [ApiMap (getFilters session)] ∧
  mapLayer (singleView (dom map_viewed)) = Some (Some (sample 70)) ∧
  cachedChartData (js map_viewed) !! "map" = None ∧
  calls map_viewed_again = calls map_viewed ++ [ApiMap (getFilters session)].
Proof. vm_compute. repeat split. Qed.

(* ================================================================== *)
(** ** Failed interactive requests *)
(* ================================================================== *)

Section Containment.
Implicit Types (s : State).

Lemma failed_reply_contained q r s :
  interactive_failure (waiting q) r →
  ∃ s', settle q r s = Some s' ∧
        rejected (rt s') = rejected (rt s) ∧
        singleView (dom s') = singleView (dom s) ∧
        comparisonView (dom s') = comparisonView (dom s) ∧
        cachedChartData (js s') = cachedChartData (js s) ∧
        toasts (shell (dom s')) = toasts (shell (dom s)) ++ notice (waiting q).
Proof.
  unfold settle. destruct (waiting q) as [| f [m|] | | | | |]; simpl; try done.
  1-4: destruct r; simpl; try done; intros _; eexists; (split; [done|]);
       split_and!; try done; simpl; by rewrite app_nil_r.
  destruct r as [| | | | | | | | |[]]; simpl; try done; intros _; eexists;
    (split; [done|]); by split_and!.
Qed.

(** C7 (as amended).  In every reachable state, a failed filter-apply,
    comparison-load, insights-refresh or export request leaves the
    single-period view (KPIs, insights, chart, map, table, status), the
    comparison view and the chart cache exactly as they were.  Only a
    failed export is surfaced, by the toast "Export failed. Please try
    again."; the other three add no toast of their own (the console gets
    the error), the one toast appearing being the success message of the
    bulk load when it was awaiting that filter application. *)
Theorem interactive_failure_contained s c q r :
  reachable s → lookup_request c s = Some q →
  interactive_failure (waiting q) r →
  let s' := step s (EvReply c r) in
  singleView (dom s') = singleView (dom s) ∧
  comparisonView (dom s') = comparisonView (dom s) ∧
  cachedChartData (js s') = cachedChartData (js s) ∧
  toasts (shell (dom s')) = toasts (shell (dom s)) ++ notice (waiting q).
Proof.
  intros Hs%reachable_wf Hq Hf.
  destruct (failed_reply_contained q r (forget_request c s) Hf)
    as (s' & E & Hr & H1 & H2 & H3 & H4).
  pose proof (handle_reply _ _ _ _ _ Hq E) as Hh. cbv zeta.
  rewrite step_handle by (done || by rewrite Hh). by rewrite Hh.
Qed.
End Containment.

(** The filter application in flight in [applying] fails on the network,
    and the export in flight in [exporting] is answered with an error
    status. *)
Lemma interactive_failure_contained_witness :
  (reachable applying ∧
   lookup_request 2 applying
     = Some {| rid := 2; waiting := PDashboard (getFilters applying) None |} ∧
   interactive_failure (PDashboard (getFilters applying) None)
                       (NetworkFailure "Failed to fetch") ∧
   toasts (shell (dom (step applying (EvReply 2 (NetworkFailure "Failed to fetch")))))
     = toasts (shell (dom applying)) ++ []) ∧
  (reachable exporting ∧
   lookup_request 2 exporting = Some {| rid := 2; waiting := PExport |} ∧
   interactive_failure PExport (Http false (sample 0)) ∧
   toasts (shell (dom (step exporting (EvReply 2 (Http false (sample 0))))))
     = toasts (shell (dom exporting))
         ++ [("Export failed. Please try again.", "error")]).
Proof.
  assert (reachable applying) as Ha by apply reachable_step, reachable_session.
  assert (reachable exporting) as He by apply reachable_step, reachable_session.
  assert (lookup_request 2 applying
          = Some {| rid := 2; waiting := PDashboard (getFilters applying) None |})
    as Hq by (vm_compute; reflexivity).
  assert (lookup_request 2 exporting = Some {| rid := 2; waiting := PExport |})
    as Hx by (vm_compute; reflexivity).
  split.
  - split; [exact Ha|]. split; [exact Hq|]. split; [exact I|].
    exact (proj2 (proj2 (proj2
             (interactive_failure_contained applying 2 _
                (NetworkFailure "Failed to fetch") Ha Hq I)))).
  - split; [exact He|]. split; [exact Hx|]. split; [exact I|].
    exact (proj2 (proj2 (proj2
             (interactive_failure_contained exporting 2 _
                (Http false (sample 0)) He Hx I)))).
Defined.

(** C7 as stated fails: the filter application of [failed_apply] failed
    on the network, and no toast was added to the one the bulk load had
    shown. *)
Lemma failed_filter_apply_shows_no_notification :
  calls failed_apply = calls session ++ [ApiDashboard (getFilters applying)] ∧
  live_requests failed_apply = [] ∧
  toasts (shell (dom session)) = [("Data loaded successfully! ok", "success")] ∧
  toasts (shell (dom failed_apply)) = toasts (shell (dom session)).
Proof. vm_compute. repeat split. Qed.

(* ================================================================== *)
(** ** Reset *)
(* ================================================================== *)

Section Reset.
Implicit Types (s : State).

Lemma quiet_refl s : quiet s s.
Proof. done. Qed.

Lemma quiet_trans s1 s2 s3 : quiet s1 s2 → quiet s2 s3 → quiet s1 s3.
Proof. unfold quiet. intros (?&?&?&?) (?&?&?&?). split_and!; congruence. Qed.

Lemma quiet_set_val i v s : quiet s (set_val i v s).
Proof. done. Qed.
Lemma quiet_set_vals i v s : quiet s (set_vals i v s).
Proof. done. Qed.
Lemma quiet_addClass x c s : quiet s (addClass x c s).
Proof. done. Qed.

Lemma wf_set_val i v s : wf s → wf (set_val i v s).
Proof. intros [H R]. split; [by peel_with ts_set_val|exact R]. Qed.
Lemma wf_set_vals i v s : wf s → wf (set_vals i v s).
Proof. intros [H R]. split; [by peel_with ts_set_vals|exact R]. Qed.
Lemma wf_addClass x c s : wf s → wf (addClass x c s).
Proof. intros [H R]. split; [by peel_with ts_addClass|exact R]. Qed.
Lemma wf_debouncedApplyFilters s : wf s → wf (debouncedApplyFilters s).
Proof. intros H. apply (armed_debouncedApplyFilters s H). Qed.
Lemma wf_debouncedLoadComparison s : wf s → wf (debouncedLoadComparison s).
Proof. intros H. apply (armed_debouncedLoadComparison s H). Qed.

Lemma getFilters_set_val i v s :
  match i with
  | PeriodType | Year | Fy | Quarter => True
  | _ => getFilters (set_val i v s) = getFilters s
  end.
Proof. by destruct i. Qed.

Lemma getFilters_set_vals i v s :
  match i with
  | CompRbms | CompStates | CompBrands | CompBranches =>
      getFilters (set_vals i v s) = getFilters s
  | _ => True
  end.
Proof. by destruct i. Qed.

Lemma comparison_controls_controls s s' :
  controls (dom s') = controls (dom s) →
  comparison_controls s' = comparison_controls s.
Proof. unfold comparison_controls, val, vals. by intros ->. Qed.

(** [resetFilters] up to its call of [applyFilters]. *)
Lemma resetFilters_split s :
  ∃ s0, resetFilters s
          = showToast "Filters reset successfully!" "success"
              (applyFilters None (debouncedLoadComparison s0)) ∧
        (wf s → wf s0) ∧ quiet s (debouncedLoadComparison s0) ∧
        getFilters (debouncedLoadComparison s0) = default_filters ∧
        comparison_controls (debouncedLoadComparison s0)
          = (Some "year", Some "Overall", Some "", Some "", [], [], [], []).
Proof.
  unfold resetFilters. eexists. split; [reflexivity|]. split_and!.
  - intros H.
    repeat lazymatch goal with
      | |- wf (debouncedLoadComparison _) => apply wf_debouncedLoadComparison
      | |- wf (debouncedApplyFilters _) => apply wf_debouncedApplyFilters
      | |- wf (set_val _ _ _) => apply wf_set_val
      | |- wf (set_vals _ _ _) => apply wf_set_vals
      | |- wf (addClass _ _ _) => apply wf_addClass
      end.
    exact H.
  - repeat lazymatch goal with
      | |- quiet _ (debouncedLoadComparison _) =>
          eapply quiet_trans; [|apply quiet_debouncedLoadComparison]
      | |- quiet _ (debouncedApplyFilters _) =>
          eapply quiet_trans; [|apply quiet_debouncedApplyFilters]
      | |- quiet _ (set_val _ _ _) => eapply quiet_trans; [|apply quiet_set_val]
      | |- quiet _ (set_vals _ _ _) => eapply quiet_trans; [|apply quiet_set_vals]
      | |- quiet _ (addClass _ _ _) => eapply quiet_trans; [|apply quiet_addClass]
      end.
    apply quiet_refl.
  - rewrite !(getFilters_controls _ _ (controls_debouncedLoadComparison _)).
    rewrite (getFilters_set_vals CompBranches), (getFilters_set_vals CompBrands),
      (getFilters_set_vals CompStates), (getFilters_set_vals CompRbms).
    rewrite (getFilters_set_val ComparisonDimension), (getFilters_set_val Period2),
      (getFilters_set_val Period1), (getFilters_set_val ComparisonType).
    rewrite !(getFilters_controls _ _ (controls_debouncedApplyFilters _)).
    reflexivity.
  - rewrite !(comparison_controls_controls _ _ (controls_debouncedLoadComparison _)).
    reflexivity.
Qed.

Lemma reset_once s :
  wf s →
  let s1 := step s EvResetFilters in
  wf s1 ∧ dataLoaded (js s1) = dataLoaded (js s) ∧
  getFilters s1 = default_filters ∧
  comparison_controls s1
    = (Some "year", Some "Overall", Some "", Some "", [], [], [], []) ∧
  dashboard_calls s1
    = dashboard_calls s ++ (if dataLoaded (js s) then [default_filters] else []) ∧
  ∀ t, t ∈ timers (rt s1) → cb t ≠ CbApplyFilters.
Proof.
  intros Hwf. cbv zeta. split; [by apply wf_step|].
  unfold step. cbn [handle].
  destruct (resetFilters_split s) as (s0 & -> & Hwf0 & (Q1 & Q2 & _) & Hg & Hc).
  specialize (Hwf0 Hwf).
  destruct (armed_debouncedLoadComparison s0 Hwf0) as [_ (i & _ & Hd)].
  set (X := debouncedLoadComparison s0) in *.
  destruct (run_action FilterApply X) as (T1 & _ & T3 & T4 & T5 & _).
  cbn [action run_callback] in T1, T3, T4, T5.
  set (Y := applyFilters None X) in *.
  pose proof (dv_drain (showToast "Filters reset successfully!" "success" Y))
    as (D1 & D2 & D3 & _ & _ & D6 & _)%dview_inv.
  change (debounce_timers (showToast _ _ Y)) with (debounce_timers Y) in D6.
  change (dataLoaded (js (showToast _ _ Y))) with (dataLoaded (js Y)) in D1.
  change (controls (dom (showToast _ _ Y))) with (controls (dom Y)) in D2.
  change (dashboard_calls (showToast _ _ Y)) with (dashboard_calls Y) in D3.
  split_and!.
  - congruence.
  - rewrite (getFilters_controls X); [done|congruence].
  - rewrite (comparison_controls_controls X); [done|congruence].
  - rewrite D3, T5, Q2. unfold expected_dashboard. by rewrite Hg, Q1.
  - intros t Ht E.
    assert (t ∈ debounce_timers
              (drain (showToast "Filters reset successfully!" "success" Y))) as Hin.
    { apply list_elem_of_filter. split; [by rewrite E|done]. }
    rewrite D6 in Hin. unfold debounce_timers in Hin, Hd.
    apply (f_equal (λ p, p.1.1)) in T1. unfold timer_state in T1. cbn [fst] in T1.
    rewrite T1, Hd in Hin.
    apply list_elem_of_singleton in Hin. by subst t.
Qed.

End Reset.

